(** * drun: lifecycle controller for named development containers

    A shallow embedding of [drun/run.py].  The script drives an external
    container engine through [subprocess.run] and touches the filesystem
    through [pathlib], [shutil] and [os]; everything the script can observe
    of the outside world goes through the [Runtime] interface below, and
    every call it makes is recorded in a trace of [Event]s.  The methods of
    class [Docker] are written in a trace/state/exception monad [Ctl], bound
    with ExtLib's monad notation. *)

From Stdlib Require Import List String Ascii ZArith Bool Lia DecimalString.
From ExtLib Require Import Structures.Monad Structures.MonadExc.
Import ListNotations.
Import MonadNotation.
Local Open Scope string_scope.
Local Open Scope monad_scope.

Set Implicit Arguments.

(** ** Python values used by the script *)

(** [str(n)] for a Python [int]. *)
Definition str_int (n : Z) : string := NilZero.string_of_int (Z.to_int n).

(** [needle in hay] for two Python strings: substring test. *)
Fixpoint str_in (needle hay : string) : bool :=
  match hay with
  | EmptyString => String.prefix needle EmptyString
  | String _ rest => String.prefix needle hay || str_in needle rest
  end.

(** [c.lower()] on one ASCII character, and [s.lower()]. *)
Definition lower_ascii (c : ascii) : ascii :=
  let n := nat_of_ascii c in
  if (65 <=? n)%nat && (n <=? 90)%nat then ascii_of_nat (n + 32) else c.

Fixpoint lower (s : string) : string :=
  match s with
  | EmptyString => EmptyString
  | String c rest => String (lower_ascii c) (lower rest)
  end.

(** [Path / name]. *)
Definition path_join (p q : string) : string := p ++ "/" ++ q.
Infix "//" := path_join (at level 40, left associativity).

(** ** class Op(Enum) *)

Inductive Op := CREATE | START | STOP | RESTART | CLEAN | RESET | NUKE.

Definition Op_eqb (a b : Op) : bool :=
  match a, b with
  | CREATE, CREATE | START, START | STOP, STOP | RESTART, RESTART
  | CLEAN, CLEAN | RESET, RESET | NUKE, NUKE => true
  | _, _ => false
  end.

(** [op.name] *)
Definition Op_name (o : Op) : string :=
  match o with
  | CREATE => "CREATE" | START => "START" | STOP => "STOP"
  | RESTART => "RESTART" | CLEAN => "CLEAN" | RESET => "RESET"
  | NUKE => "NUKE"
  end.

(** ** Exceptions and results of external calls *)

(** The handler of [Docker.run] only asks whether an exception is a
    [subprocess.CalledProcessError]; every handler prints [str(e)]. *)
Inductive Exn :=
| CalledProcessError (text : string)
| OtherException (text : string).

Definition str_exn (e : Exn) : string :=
  match e with CalledProcessError t | OtherException t => t end.

Definition is_CalledProcessError (e : Exn) : bool :=
  match e with CalledProcessError _ => true | OtherException _ => false end.

Inductive Res (A : Type) :=
| Ok (a : A)
| Raise (e : Exn).
Arguments Ok {A} a.
Arguments Raise {A} e.

(** [subprocess.CompletedProcess] *)
Record CompletedProcess := { returncode : Z; stdout : string }.

(** Keyword arguments of [subprocess.run] used by the script:
    [check=True] for every command, [capture_output=True, text=True] for
    the two state queries. *)
Record RunOpts := { check : bool; capture_output : bool }.
Definition checked : RunOpts := {| check := true; capture_output := false |}.
Definition captured : RunOpts := {| check := false; capture_output := true |}.

(** ** The outside world *)

(** What the script sees of its environment.  [W] is the state of the
    machine (filesystem, engine); each call may change it and may raise.
    [ROOT] is [Path(__file__).resolve().parent.parent].  [py_eval] is the
    builtin [eval] applied to a message in the scope of [Docker.run], where
    [exists] and [running] are bound. *)
Class Runtime (W : Type) := {
  ROOT : string;
  path_exists : string -> W -> bool;
  path_mkdir : string -> W -> Res unit * W;
  shutil_copy2 : string -> string -> W -> Res unit * W;
  os_makedirs : string -> W -> Res unit * W;
  subprocess_run : list string -> RunOpts -> W -> Res CompletedProcess * W;
  py_eval : string -> bool -> bool -> string
}.

(** One entry of the trace per call that leaves the process. *)
Inductive Event :=
| EMkdir (p : string)
| ECopy (src dst : string)
| EMakedirs (p : string)
| ESubprocess (argv : list string) (opts : RunOpts)
| EPrint (line : string).

(** ** The controller monad: world state, exceptions, trace *)

Definition Ctl (W A : Type) : Type := W -> Res A * list Event * W.

Definition Ctl_ret {W A} (a : A) : Ctl W A := fun w => (Ok a, [], w).

Definition Ctl_bind {W A B} (m : Ctl W A) (k : A -> Ctl W B) : Ctl W B :=
  fun w =>
    match m w with
    | (Ok a, l1, w1) =>
        match k a w1 with (r, l2, w2) => (r, (l1 ++ l2)%list, w2) end
    | (Raise e, l1, w1) => (Raise e, l1, w1)
    end.

Definition Ctl_raise {W A} (e : Exn) : Ctl W A := fun w => (Raise e, [], w).

(** [try: m  except Exception as e: h e] *)
Definition Ctl_catch {W A} (m : Ctl W A) (h : Exn -> Ctl W A) : Ctl W A :=
  fun w =>
    match m w with
    | (Ok a, l1, w1) => (Ok a, l1, w1)
    | (Raise e, l1, w1) =>
        match h e w1 with (r, l2, w2) => (r, (l1 ++ l2)%list, w2) end
    end.

#[global] Instance Monad_Ctl W : Monad (Ctl W) :=
  {| ret := @Ctl_ret W; bind := @Ctl_bind W |}.

#[global] Instance Exc_Ctl W : MonadExc Exn (Ctl W) :=
  {| raise := @Ctl_raise W; catch := @Ctl_catch W |}.

Definition result {W A} (x : Res A * list Event * W) : Res A := fst (fst x).
Definition trace {W A} (x : Res A * list Event * W) : list Event := snd (fst x).
Definition world {W A} (x : Res A * list Event * W) : W := snd x.

(** ** Module-level constants and the Docker object *)

(** The fields of a [Docker] object once [__init__] has run.  [script] is
    [None] or a string; [dir] and [df] are derived from [name] below. *)
Record Docker := {
  name : string;
  op : Op;
  user : string;
  pwd : string;
  ws : string;
  script : option string;
  root : bool;
  debug : Z;
  ports : list (Z * Z)
}.

(** Truth value of [self.script]: [None] and the empty string are false. *)
Definition script_set (d : Docker) : option string :=
  match script d with
  | Some EmptyString => None
  | Some s => Some s
  | None => None
  end.

Section Controller.

Context {W : Type} {RT : Runtime W}.

Definition TMPL : string := ROOT // "drun" // "templates".
Definition PROJ : string := ROOT // "projects".

Definition dir (d : Docker) : string := PROJ // name d.
Definition df (d : Docker) : string := dir d // "Dockerfile".

(** *** Calls into the runtime, each leaving its event in the trace *)

Definition print (line : string) : Ctl W unit :=
  fun w => (Ok tt, [EPrint line], w).

Definition exists_path (p : string) : Ctl W bool :=
  fun w => (Ok (path_exists p w), [], w).

Definition mkdir (p : string) : Ctl W unit :=
  fun w => let (r, w') := path_mkdir p w in (r, [EMkdir p], w').

Definition copy2 (src dst : string) : Ctl W unit :=
  fun w => let (r, w') := shutil_copy2 src dst w in (r, [ECopy src dst], w').

Definition makedirs (p : string) : Ctl W unit :=
  fun w => let (r, w') := os_makedirs p w in (r, [EMakedirs p], w').

Definition subprocess (argv : list string) (o : RunOpts)
  : Ctl W CompletedProcess :=
  fun w => let (r, w') := subprocess_run argv o w in
           (r, [ESubprocess argv o], w').

(** *** Methods of class Docker *)

Definition dbg (d : Docker) (lvl : Z) (msg : string) : Ctl W unit :=
  if (debug d >=? lvl)%Z
  then print ("[DEBUG-" ++ str_int lvl ++ "] " ++ msg)
  else ret tt.

Definition setup (d : Docker) : Ctl W unit :=
  have_dir <- exists_path (dir d) ;;
  (if negb have_dir then mkdir (dir d) else ret tt) ;;
  have_df <- exists_path (df d) ;;
  if negb have_df
  then copy2 (TMPL // "Dockerfile.template") (df d) ;;
       dbg d 2 ("Created Dockerfile in " ++ dir d)
  else ret tt.

Definition exists_cmd (d : Docker) : list string :=
  ["docker"; "ps"; "-a"; "--filter"; "name=^" ++ name d ++ "$";
   "--format"; "{{.Names}}"].

Definition running_cmd (d : Docker) : list string :=
  ["docker"; "ps"; "--filter"; "name=^" ++ name d ++ "$";
   "--format"; "{{.Names}}"].

Definition exists_ (d : Docker) : Ctl W bool :=
  catch (p <- subprocess (exists_cmd d) captured ;;
         ret (str_in (name d) (stdout p)))
        (fun _ => ret false).

Definition running (d : Docker) : Ctl W bool :=
  catch (p <- subprocess (running_cmd d) captured ;;
         ret (str_in (name d) (stdout p)))
        (fun _ => ret false).

Definition build_cmd (d : Docker) : list string :=
  ["docker"; "build";
   "--build-arg"; "USERNAME=" ++ user d;
   "--build-arg"; "USER_PASSWORD=" ++ pwd d;
   "-t"; name d; "-f"; df d; dir d].

Definition build (d : Docker) : Ctl W bool :=
  dbg d 2 ("Building from " ++ df d ++ "...") ;;
  catch (subprocess (build_cmd d) checked ;;
         dbg d 2 "Build OK" ;;
         ret true)
        (fun e => print ("Build failed: " ++ str_exn e) ;; ret false).

(** [sum([("-p", f"{h}:{c}") for h,c in self.ports], ())]: the tuples are
    added up from the left, starting from the empty tuple. *)
Definition port_flags (ps : list (Z * Z)) : list string :=
  fold_left (fun acc t => (acc ++ t)%list)
            (map (fun hc => ["-p"; str_int (fst hc) ++ ":" ++ str_int (snd hc)]) ps)
            [].

Definition run_cmd (d : Docker) : list string :=
  let cmd := ["docker"; "run"; "-d"; "--name"; name d] in
  let cmd := (cmd ++ port_flags (ports d))%list in
  let cmd := (cmd ++ ["-v"; (ws d ++ ":/home/" ++ user d ++ "/workspace")%string])%list in
  let cmd := if negb (root d) then (cmd ++ ["-u"; user d])%list else cmd in
  (cmd ++ [name d])%list.

Definition sync_cmd (d : Docker) : list string :=
  ["docker"; "exec"; name d; "sync"].

Definition drop_caches_cmd (d : Docker) : list string :=
  ["docker"; "exec"; name d; "bash"; "-c";
   "echo 3 > /proc/sys/vm/drop_caches"].

Definition clear_cache (d : Docker) : Ctl W unit :=
  catch (subprocess (sync_cmd d) checked ;;
         subprocess (drop_caches_cmd d) checked ;;
         dbg d 2 "Cache cleared")
        (fun e => print ("Cache clear failed: " ++ str_exn e)).

Definition startup_cmd (d : Docker) (s : string) : list string :=
  ["docker"; "exec"; name d; "bash"; "-c";
   "cd /home/" ++ user d ++ "/workspace && ./" ++ s].

Definition create (d : Docker) : Ctl W unit :=
  have_df <- exists_path (df d) ;;
  if negb have_df
  then print ("No Dockerfile at " ++ df d)
  else
    makedirs (ws d) ;;
    built <- build d ;;
    if negb built then ret tt
    else
      subprocess (run_cmd d) checked ;;
      match script_set d with
      | Some s => subprocess (startup_cmd d s) checked ;; ret tt
      | None => ret tt
      end.

(** The [checks] dictionary of [Docker.run], in insertion order.  Its keys
    are pairs of an operation and a condition; the five operations differ,
    so no key overwrites another. *)
Definition checks (exists_ running : bool) : list (Op * bool * string) :=
  [ (CREATE, exists_, "exists. Use 'start' or 'reset'.");
    (START, negb exists_ || running,
       "'not found' if not exists else 'running'");
    (STOP, negb exists_ || negb running,
       "'not found' if not exists else 'not running'");
    (RESTART, negb exists_, "not found. Use 'create'.");
    (CLEAN, negb exists_, "not found. Use 'create'.") ].

(** [eval(msg) if '{' in msg else msg] *)
Definition render (msg : string) (exists_ running : bool) : string :=
  if str_in "{" msg then py_eval msg exists_ running else msg.

(** The loop over [checks.items()]: the text of the first check that
    fires for [self.op], or [None] when the loop runs to its end. *)
Fixpoint first_check (self_op : Op) (exists_ running : bool)
         (items : list (Op * bool * string)) : option string :=
  match items with
  | [] => None
  | (o, cond, msg) :: rest =>
      if Op_eqb self_op o && cond
      then Some (render msg exists_ running)
      else first_check self_op exists_ running rest
  end.

(** The first element of the RESET and NUKE lambdas:
    [subprocess.run(["docker", "stop" if running else "rm", self.name],
    check=True) if exists else None]. *)
Definition teardown (d : Docker) (exists_ running : bool) : Ctl W unit :=
  if exists_
  then subprocess ["docker"; if running then "stop" else "rm"; name d]
                  checked ;; ret tt
  else ret tt.

(** The [ops] dictionary of lambdas, indexed by [self.op] and called. *)
Definition dispatch (d : Docker) (exists_ running : bool) : Ctl W unit :=
  match op d with
  | CREATE => create d
  | START => subprocess ["docker"; "start"; name d] checked ;; ret tt
  | STOP => subprocess ["docker"; "stop"; name d] checked ;; ret tt
  | RESTART => subprocess ["docker"; "restart"; name d] checked ;; ret tt
  | CLEAN =>
      clear_cache d ;;
      subprocess ["docker"; "restart"; name d] checked ;; ret tt
  | RESET =>
      teardown d exists_ running ;;
      create d
  | NUKE =>
      teardown d exists_ running ;;
      subprocess ["docker"; "rmi"; name d] checked ;;
      create d
  end.

Definition completed_line (d : Docker) : string :=
  "Operation '" ++ lower (Op_name (op d)) ++ "' completed!".

Definition error_line (e : Exn) : string :=
  (if is_CalledProcessError e then "Error during" else "Unexpected")
    ++ " error: " ++ str_exn e.

Definition run (d : Docker) : Ctl W unit :=
  catch (setup d ;;
         exists_ <- exists_ d ;;
         running <- running d ;;
         match first_check (op d) exists_ running (checks exists_ running) with
         | Some msg => print ("Container " ++ name d ++ " " ++ msg)
         | None =>
             dispatch d exists_ running ;;
             print (completed_line d)
         end)
        (fun e => print (error_line e)).

End Controller.

(** ** Vocabulary of the specification *)

Section Vocabulary.

Context {W : Type} {RT : Runtime W}.

(** The opening of [Docker.run]: filesystem setup, then the two state
    queries whose answers are bound to [exists] and [running]. *)
Definition observe (d : Docker) : Ctl W (bool * bool) :=
  setup d ;;
  e <- exists_ d ;;
  r <- running d ;;
  ret (e, r).

(** The close of [Docker.run] around an outcome of the dispatch: the
    confirmation after a normal return, the error line after an exception
    (the handler swallows it, so [run] itself returns normally). *)
Definition conclude (d : Docker) (pre : list Event)
           (x : Res unit * list Event * W) : Res unit * list Event * W :=
  match x with
  | (Ok _, l, w) => (Ok tt, (pre ++ l ++ [EPrint (completed_line d)])%list, w)
  | (Raise e, l, w) => (Ok tt, (pre ++ l ++ [EPrint (error_line e)])%list, w)
  end.

(** The line printed when a check fires. *)
Definition rejection_line (d : Docker) (msg : string) : Event :=
  EPrint ("Container " ++ name d ++ " " ++ msg).

(** The table of section 4.1, column "Rejected when". *)
Definition spec_rejects (o : Op) (exists_ running : bool) : bool :=
  match o with
  | CREATE => exists_
  | START => negb exists_ || running
  | STOP => negb exists_ || negb running
  | RESTART => negb exists_
  | CLEAN => negb exists_
  | RESET => false
  | NUKE => false
  end.

(** The text stored in [checks] for an operation that has a check. *)
Definition check_text (o : Op) : string :=
  match o with
  | CREATE => "exists. Use 'start' or 'reset'."
  | START => "'not found' if not exists else 'running'"
  | STOP => "'not found' if not exists else 'not running'"
  | _ => "not found. Use 'create'."
  end.

(** The state queries are the two [docker ps] calls; every other call of
    [subprocess.run] is an engine command. *)
Definition is_state_query (argv : list string) : bool :=
  match argv with
  | _ :: sub :: _ => (sub =? "ps")%string
  | _ => false
  end.

Definition is_engine_command (e : Event) : bool :=
  match e with
  | ESubprocess argv _ => negb (is_state_query argv)
  | _ => false
  end.

Definition engine_commands (l : list Event) : list Event :=
  filter is_engine_command l.

(** Everything in a trace but the printed lines. *)
Definition is_action (e : Event) : bool :=
  match e with EPrint _ => false | _ => true end.

Definition actions (l : list Event) : list Event := filter is_action l.

(** The Create sequence of section 4.2: workspace-ensure, build, run,
    optional startup exec. *)
Definition create_plan (d : Docker) : list Event :=
  ([EMakedirs (ws d);
    ESubprocess (build_cmd d) checked;
    ESubprocess (run_cmd d) checked]
   ++ match script_set d with
      | Some s => [ESubprocess (startup_cmd d s) checked]
      | None => []
      end)%list.

(** What [dbg] adds to the trace. *)
Definition dbg_trace (d : Docker) (lvl : Z) (msg : string) : list Event :=
  if (debug d >=? lvl)%Z
  then [EPrint ("[DEBUG-" ++ str_int lvl ++ "] " ++ msg)]
  else [].

(** The last line of a run whose dispatch ended with [r]. *)
Definition closing_line (d : Docker) {A} (r : Res A) : Event :=
  EPrint (match r with
          | Ok _ => completed_line d
          | Raise e => error_line e
          end).

Definition rmi_event (d : Docker) : Event :=
  ESubprocess ["docker"; "rmi"; name d] checked.

Definition restart_event (d : Docker) : Event :=
  ESubprocess ["docker"; "restart"; name d] checked.

(** "Either exec fails": the sync raises, or it returns and the cache-drop
    raises. *)
Definition cache_clear_fails (d : Docker) (w0 : W) : Prop :=
  (exists e w1, subprocess_run (sync_cmd d) checked w0 = (Raise e, w1))
  \/ (exists p w1 e w2,
        subprocess_run (sync_cmd d) checked w0 = (Ok p, w1)
        /\ subprocess_run (drop_caches_cmd d) checked w1 = (Raise e, w2)).

(** Section 4.2 on ClearCacheAndRestart, as the specification words it: on
    an existing container, a failing sync or cache-drop exec means that no
    restart is issued. *)
Definition clean_is_fail_fast (d : Docker) (w : W) : Prop :=
  forall rn l0 w0,
    op d = CLEAN ->
    observe d w = (Ok (true, rn), l0, w0) ->
    cache_clear_fails d w0 ->
    ~ In (restart_event d) (trace (run d w)).

(** The publish arguments as the specification words them: one flag pair
    per configured port, in the configured order. *)
Definition publish_args (ps : list (Z * Z)) : list string :=
  flat_map (fun hc => ["-p"; str_int (fst hc) ++ ":" ++ str_int (snd hc)]) ps.

(** The in-container path the workspace is mounted on. *)
Definition workspace_mount (d : Docker) : string :=
  "/home/" ++ user d ++ "/workspace".

End Vocabulary.

(** ** A scripted engine

    The counterpart of the test suite's [mock_run.side_effect]: the engine
    answers the calls of [subprocess.run] from a list of prepared replies,
    one per call; a reply with a non-zero return code raises
    [CalledProcessError] under [check=True].  The filesystem is the list of
    paths that exist. *)
Module Scripted.

Record World := {
  files : list string;
  replies : list (Res CompletedProcess)
}.

Definition has (p : string) (w : World) : bool :=
  existsb (String.eqb p) (files w).

Definition touch (p : string) (w : World) : World :=
  {| files := p :: files w; replies := replies w |}.

Definition copy (src dst : string) (w : World) : Res unit * World :=
  if has src w then (Ok tt, touch dst w)
  else (Raise (OtherException ("No such file or directory: " ++ src)), w).

Definition answer (argv : list string) (o : RunOpts) (w : World)
  : Res CompletedProcess * World :=
  match replies w with
  | [] => (Raise (OtherException "StopIteration"), w)
  | r :: rest =>
      let w' := {| files := files w; replies := rest |} in
      match r with
      | Ok p =>
          if check o && negb (returncode p =? 0)%Z
          then (Raise (CalledProcessError
                         ("non-zero exit status " ++ str_int (returncode p))),
                w')
          else (Ok p, w')
      | Raise e => (Raise e, w')
      end
  end.

(** [eval] on the two conditional expressions found in [checks]. *)
Definition eval (msg : string) (exists_ running : bool) : string :=
  if (msg =? "'not found' if not exists else 'running'")%string
  then (if negb exists_ then "not found" else "running")
  else if (msg =? "'not found' if not exists else 'not running'")%string
  then (if negb exists_ then "not found" else "not running")
  else msg.

#[global] Instance runtime : Runtime World := {|
  ROOT := "/srv/containers";
  path_exists := has;
  path_mkdir := fun p w => (Ok tt, touch p w);
  shutil_copy2 := copy;
  os_makedirs := fun p w => (Ok tt, touch p w);
  subprocess_run := answer;
  py_eval := eval
|}.

Definition listed (out : string) : Res CompletedProcess :=
  Ok {| returncode := 0; stdout := out |}.
Definition done : Res CompletedProcess :=
  Ok {| returncode := 0; stdout := EmptyString |}.
Definition failed (rc : Z) : Res CompletedProcess :=
  Ok {| returncode := rc; stdout := EmptyString |}.

Definition here : string := "test-container".

(** The object built by the test suite's [setUp], with a chosen operation. *)
Definition docker (o : Op) : Docker := {|
  name := here; op := o; user := "testuser"; pwd := "testpass";
  ws := "/tmp/test_workspace"; script := None; root := false; debug := 2;
  ports := []
|}.

(** The same object with a startup script, two published ports and a
    lower debug level. *)
Definition docker_scripted (o : Op) : Docker := {|
  name := here; op := o; user := "alice"; pwd := "testpass";
  ws := "/tmp/test_workspace"; script := Some "init.sh"; root := false;
  debug := 0; ports := [(8080, 80); (2222, 22)]%Z
|}.

(** A machine on which only the Dockerfile template exists. *)
Definition fresh (rs : list (Res CompletedProcess)) : World :=
  {| files := ["/srv/containers/drun/templates/Dockerfile.template"];
     replies := rs |}.

(** The same machine once [setup] has run for [d], with replies [rs] left. *)
Definition fresh_after_setup (d : Docker) (rs : list (Res CompletedProcess))
  : World :=
  {| files := [df d; dir d;
               "/srv/containers/drun/templates/Dockerfile.template"];
     replies := rs |}.

End Scripted.


(** ** Building the Docker object: [ENV], [Docker.__init__], [main] *)

(** [s.upper()] on ASCII. *)
Definition upper_ascii (c : ascii) : ascii :=
  let n := nat_of_ascii c in
  if (97 <=? n)%nat && (n <=? 122)%nat then ascii_of_nat (n - 32) else c.

Fixpoint upper (s : string) : string :=
  match s with
  | EmptyString => EmptyString
  | String c rest => String (upper_ascii c) (upper rest)
  end.

(** [s.split(sep)] for a separator of one character: the pieces between
    the separators, empty pieces included; never the empty list. *)
Fixpoint split_on (sep : ascii) (s : string) : list string :=
  match s with
  | EmptyString => [EmptyString]
  | String c rest =>
      if Ascii.eqb c sep then EmptyString :: split_on sep rest
      else match split_on sep rest with
           | piece :: pieces => String c piece :: pieces
           | [] => [String c EmptyString]
           end
  end.

(** [sep.join(pieces)], the inverse of [split_on]. *)
Fixpoint join_with (sep : ascii) (pieces : list string) : string :=
  match pieces with
  | [] => EmptyString
  | [piece] => piece
  | piece :: rest => piece ++ String sep (join_with sep rest)
  end.

(** The members of [Op] in definition order, [Op[key]] and the [choices]
    of the [operation] argument, [[op.name.lower() for op in Op]]. *)
Definition all_ops : list Op :=
  [CREATE; START; STOP; RESTART; CLEAN; RESET; NUKE].

Definition Op_getitem (key : string) : option Op :=
  find (fun o => (Op_name o =? key)%string) all_ops.

Definition choices : list string := map (fun o => lower (Op_name o)) all_ops.

(** What the construction reads of the process around it: [os.getenv],
    [os.path.abspath] and the builtin [int] on a string, [None] standing
    for its [ValueError]. *)
Class Host := {
  os_getenv : string -> option string;
  os_path_abspath : string -> string;
  int_ : string -> option Z
}.

(** The exceptions that can end [main] before an object exists. *)
Inductive Crash :=
| ValueError_int (literal : string)
| ValueError_unpack (pieces : nat)
| KeyError (key : string).

(** The outcome of [Docker(...)].  A port tuple read from DOCKER_PORTS
    has as many members as its entry has pieces; [self.ports] of the
    record [Docker] holds pairs, so an object with another tuple in it is
    kept apart, with its tuples: it is an object on which
    [for h,c in self.ports] cannot unpack. *)
Inductive Constructed :=
| Built (d : Docker)
| BuiltOddPorts (tuples : list (list Z))
| Crashed (c : Crash).

(** The namespace returned by [parse_args]. *)
Record Namespace := {
  arg_operation : string;
  arg_container_name : string;
  arg_username : option string;
  arg_password : option string;
  arg_workspace : option string;
  arg_startup_script : option string;
  arg_ports : option (list string);
  arg_root : bool;
  arg_debug : Z
}.

(** The values of the dictionary [ENV], one field per key. *)
Record Environ := {
  ENV_USER : string;
  ENV_PASS : string;
  ENV_WORKSPACE : string;
  ENV_ROOT : string;
  ENV_PORTS : string;
  ENV_STARTUP : option string;
  ENV_DEBUG : string
}.

(** [x or y] for an optional string [x]: [None] and the empty string are
    false. *)
Definition or_str (x : option string) (y : string) : string :=
  match x with
  | Some (String c s) => String c s
  | _ => y
  end.

Definition or_opt (x y : option string) : option string :=
  match x with
  | Some (String c s) => Some (String c s)
  | _ => y
  end.

(** [[f(x) for x in l]] where [f] may raise: the first exception wins. *)
Fixpoint map_crash {A B} (f : A -> Crash + B) (l : list A) : Crash + list B :=
  match l with
  | [] => inr []
  | x :: rest =>
      match f x with
      | inl c => inl c
      | inr y =>
          match map_crash f rest with
          | inl c => inl c
          | inr ys => inr (y :: ys)
          end
      end
  end.

(** The tuples of [self.ports] as pairs, when each of them has two
    members. *)
Fixpoint pairs_of (tuples : list (list Z)) : option (list (Z * Z)) :=
  match tuples with
  | [] => Some []
  | [h; c] :: rest =>
      match pairs_of rest with
      | Some ps => Some ((h, c) :: ps)
      | None => None
      end
  | _ :: _ => None
  end.

Section Construction.

Context {HOST : Host}.

(** [os.getenv(f"DOCKER_{k}", v)] *)
Definition getenv_default (k v : string) : string :=
  match os_getenv ("DOCKER_" ++ k) with
  | Some x => x
  | None => v
  end.

Definition ENV : Environ := {|
  ENV_USER := getenv_default "USER" "developer";
  ENV_PASS := getenv_default "PASS" "password";
  ENV_WORKSPACE := getenv_default "WORKSPACE" "./workspace";
  ENV_ROOT := getenv_default "ROOT" "0";
  ENV_PORTS := getenv_default "PORTS" EmptyString;
  ENV_STARTUP := os_getenv "DOCKER_STARTUP";
  ENV_DEBUG := getenv_default "DEBUG" "0"
|}.

(** [int(s)] *)
Definition int_or_crash (s : string) : Crash + Z :=
  match int_ s with
  | Some n => inr n
  | None => inl (ValueError_int s)
  end.

(** [[tuple(map(int, p.split(":"))) for p in ENV["PORTS"].split(",")]] *)
Definition env_ports : Crash + list (list Z) :=
  map_crash (fun p => map_crash int_or_crash (split_on ":" p))
            (split_on "," (ENV_PORTS ENV)).

(** [Docker.__init__] *)
Definition Docker_init (name_ : string) (op_ : Op)
           (user_ pwd_ ws_ script_ : option string)
           (ports_ : option (list (Z * Z))) (root_ : option bool)
           (debug_ : Z) : Constructed :=
  let user' := or_str user_ (ENV_USER ENV) in
  let pwd' := or_str pwd_ (ENV_PASS ENV) in
  let ws' := os_path_abspath (or_str ws_ (ENV_WORKSPACE ENV)) in
  let script' := or_opt script_ (ENV_STARTUP ENV) in
  match (match root_ with
         | Some b => inr b
         | None =>
             match int_or_crash (ENV_ROOT ENV) with
             | inl c => inl c
             | inr n => inr (negb (n =? 0)%Z)
             end
         end) with
  | inl c => Crashed c
  | inr root' =>
      match (if (debug_ =? 0)%Z then int_or_crash (ENV_DEBUG ENV)
             else inr debug_) with
      | inl c => Crashed c
      | inr debug' =>
          let object ps :=
            {| name := name_; op := op_; user := user'; pwd := pwd';
               ws := ws'; script := script'; root := root';
               debug := debug'; ports := ps |} in
          match ports_ with
          | Some (p :: ps) => Built (object (p :: ps))
          | _ =>
              match ENV_PORTS ENV with
              | EmptyString => Built (object [])
              | String _ _ =>
                  match env_ports with
                  | inl c => Crashed c
                  | inr tuples =>
                      match pairs_of tuples with
                      | Some ps => Built (object ps)
                      | None => BuiltOddPorts tuples
                      end
                  end
              end
          end
      end
  end.

(** One member of
    [[(int(h),int(c)) for p in (args.ports or []) for h,c in [p.split(":")]]] *)
Definition cli_port (p : string) : Crash + (Z * Z) :=
  match split_on ":" p with
  | [h; c] =>
      match int_or_crash h with
      | inl e => inl e
      | inr hz =>
          match int_or_crash c with
          | inl e => inl e
          | inr cz => inr (hz, cz)
          end
      end
  | pieces => inl (ValueError_unpack (List.length pieces))
  end.

(** [main] up to the call of [.run()]: the ports, then the object. *)
Definition main_object (args : Namespace) : Constructed :=
  match map_crash cli_port
                  (match arg_ports args with Some l => l | None => [] end) with
  | inl c => Crashed c
  | inr ports_ =>
      match Op_getitem (upper (arg_operation args)) with
      | None => Crashed (KeyError (upper (arg_operation args)))
      | Some o =>
          Docker_init (arg_container_name args) o
                      (arg_username args) (arg_password args)
                      (arg_workspace args) (arg_startup_script args)
                      (Some ports_) (Some (arg_root args)) (arg_debug args)
      end
  end.

(** A port argument and the pair it stands for. *)
Definition port_parses (p : string) (hc : Z * Z) : Prop :=
  exists h c,
    split_on ":" p = [h; c]
    /\ int_ h = Some (fst hc) /\ int_ c = Some (snd hc).

(** A port argument whose two numerals are written the way [str] writes
    them (no sign, space or leading zero that [int] would accept and drop). *)
Definition canonical (p : string) : Prop :=
  forall h c hz cz,
    split_on ":" p = [h; c] ->
    int_ h = Some hz -> int_ c = Some cz ->
    str_int hz = h /\ str_int cz = c.

End Construction.

(** A host for the examples: an environment given as a list of bindings,
    a working directory [/work], and an [int] that reads plain decimal
    numerals. *)
Module ScriptedHost.

Fixpoint digits (s : string) (acc : Z) : option Z :=
  match s with
  | EmptyString => Some acc
  | String c rest =>
      let n := nat_of_ascii c in
      if (48 <=? n)%nat && (n <=? 57)%nat
      then digits rest (10 * acc + Z.of_nat (n - 48))%Z
      else None
  end.

Definition numeral (s : string) : option Z :=
  match s with
  | EmptyString => None
  | String _ _ => digits s 0
  end.

Definition lookup (env : list (string * string)) (k : string)
  : option string :=
  match find (fun kv => (fst kv =? k)%string) env with
  | Some kv => Some (snd kv)
  | None => None
  end.

Definition under_work (p : string) : string :=
  match p with
  | String "/" _ => p
  | _ => "/work/" ++ p
  end.

Definition host (env : list (string * string)) : Host := {|
  os_getenv := lookup env;
  os_path_abspath := under_work;
  int_ := numeral
|}.

Definition cli (word : string) : Namespace := {|
  arg_operation := word; arg_container_name := "test-container";
  arg_username := None; arg_password := None; arg_workspace := None;
  arg_startup_script := None; arg_ports := None; arg_root := false;
  arg_debug := 0
|}.

(** [create box --ports 8080:80 2222:22 --debug 1] *)
Definition two_ports : Namespace := {|
  arg_operation := "create"; arg_container_name := "box";
  arg_username := None; arg_password := None; arg_workspace := None;
  arg_startup_script := None; arg_ports := Some ["8080:80"; "2222:22"];
  arg_root := false; arg_debug := 1
|}.

End ScriptedHost.

(** ** Further vocabulary: what a run reports *)

Section Reporting.

Context {W : Type} {RT : Runtime W}.

(** The command of the three operations that map to one engine
    subcommand of the same name. *)
Definition plain_cmd (d : Docker) : list string :=
  ["docker"; lower (Op_name (op d)); name d].

Definition is_plain (o : Op) : bool :=
  match o with START | STOP | RESTART => true | _ => false end.

(** A printed line that starts like the confirmation, with a capital O. *)
Definition is_confirmation (e : Event) : bool :=
  match e with
  | EPrint (String c _) => Ascii.eqb c "O"
  | _ => false
  end.

Definition is_subprocess (e : Event) : bool :=
  match e with ESubprocess _ _ => true | _ => false end.

(** A computation none of whose events, in any world, is selected by [f]. *)
Definition quiet {A} (f : Event -> bool) (m : Ctl W A) : Prop :=
  forall w, filter f (trace (m w)) = [].

(** The teardown command of RESET and NUKE for an existing container. *)
Definition teardown_event (d : Docker) (running : bool) : Event :=
  ESubprocess ["docker"; if running then "stop" else "rm"; name d] checked.

End Reporting.

(** * Properties *)

Ltac ctl :=
  cbn [bind ret catch raise Monad_Ctl Exc_Ctl];
  unfold Ctl_bind, Ctl_catch, Ctl_ret, Ctl_raise.

Ltac pair_inv H := inversion H; subst; clear H.

(** Membership in a list that is written out. *)
Ltac in_list := repeat (try (left; reflexivity); right).

(** Two traces that differ only in how their appends are nested. *)
Ltac trace_eq :=
  repeat (progress cbn [app] || rewrite <- app_assoc || rewrite app_nil_r);
  reflexivity.

Section Facts.

Context {W : Type} {RT : Runtime W}.

(** *** The state queries *)

Lemma exists_run (d : Docker) (w : W) :
  exists_ d w =
    match subprocess_run (exists_cmd d) captured w with
    | (Ok p, w') =>
        (Ok (str_in (name d) (stdout p)),
         [ESubprocess (exists_cmd d) captured], w')
    | (Raise _, w') => (Ok false, [ESubprocess (exists_cmd d) captured], w')
    end.
Proof.
  unfold exists_, subprocess. ctl.
  destruct (subprocess_run (exists_cmd d) captured w) as [[p | e] w'];
    reflexivity.
Qed.

Lemma running_run (d : Docker) (w : W) :
  running d w =
    match subprocess_run (running_cmd d) captured w with
    | (Ok p, w') =>
        (Ok (str_in (name d) (stdout p)),
         [ESubprocess (running_cmd d) captured], w')
    | (Raise _, w') => (Ok false, [ESubprocess (running_cmd d) captured], w')
    end.
Proof.
  unfold running, subprocess. ctl.
  destruct (subprocess_run (running_cmd d) captured w) as [[p | e] w'];
    reflexivity.
Qed.

Lemma exists_total (d : Docker) (w : W) :
  exists b w', exists_ d w = (Ok b, [ESubprocess (exists_cmd d) captured], w').
Proof.
  rewrite exists_run.
  destruct (subprocess_run (exists_cmd d) captured w) as [[p | e] w'];
    eauto.
Qed.

Lemma running_total (d : Docker) (w : W) :
  exists b w', running d w = (Ok b, [ESubprocess (running_cmd d) captured], w').
Proof.
  rewrite running_run.
  destruct (subprocess_run (running_cmd d) captured w) as [[p | e] w'];
    eauto.
Qed.

(** *** The shape of [Docker.run] *)

Lemma run_after_observe (d : Docker) (w : W) ex rn l0 w0 :
  observe d w = (Ok (ex, rn), l0, w0) ->
  run d w =
    match first_check (op d) ex rn (checks ex rn) with
    | Some msg => (Ok tt, (l0 ++ [rejection_line d msg])%list, w0)
    | None => conclude d l0 (dispatch d ex rn w0)
    end.
Proof.
  unfold observe, run. ctl. intros H.
  destruct (setup d w) as [[[[] | e] ls] w1]; [| discriminate].
  destruct (exists_total d w1) as (b1 & w2 & E1). rewrite E1 in *.
  destruct (running_total d w2) as (b2 & w3 & E2). rewrite E2 in *.
  pair_inv H.
  destruct (first_check (op d) ex rn (checks ex rn)) as [msg |].
  - unfold print, rejection_line. trace_eq.
  - unfold conclude.
    destruct (dispatch d ex rn w0) as [[[[] | e] ld] w4]; unfold print;
      trace_eq.
Qed.

(** *** The checks *)

Lemma first_check_table (o : Op) (ex rn : bool) :
  first_check o ex rn (checks ex rn) =
    if spec_rejects o ex rn then Some (check_text o) else None.
Proof. destruct o, ex, rn; reflexivity. Qed.

(** *** What the opening of [run] leaves in the trace *)

Lemma setup_no_commands (d : Docker) (w : W) :
  engine_commands (trace (setup d w)) = [].
Proof.
  unfold setup, exists_path, mkdir, copy2, dbg, print. ctl.
  destruct (path_exists (dir d) w); cbn [negb].
  - destruct (path_exists (df d) w); cbn [negb]; [reflexivity |].
    destruct (shutil_copy2 _ _ w) as [[[] | e] w1]; [| reflexivity].
    destruct (debug d >=? 2)%Z; reflexivity.
  - destruct (path_mkdir (dir d) w) as [[[] | e] w1]; [| reflexivity].
    destruct (path_exists (df d) w1); cbn [negb]; [reflexivity |].
    destruct (shutil_copy2 _ _ w1) as [[[] | e] w2]; [| reflexivity].
    destruct (debug d >=? 2)%Z; reflexivity.
Qed.

Lemma observe_no_commands (d : Docker) (w : W) :
  engine_commands (trace (observe d w)) = [].
Proof.
  pose proof (setup_no_commands d w) as Hs.
  unfold observe. ctl.
  destruct (setup d w) as [[[[] | e] ls] w1]; [| exact Hs].
  destruct (exists_total d w1) as (b1 & w2 & E1). rewrite E1.
  destruct (running_total d w2) as (b2 & w3 & E2). rewrite E2.
  unfold trace in *. cbn [fst snd] in *.
  unfold engine_commands in *. rewrite filter_app, Hs. reflexivity.
Qed.

(** *** The validation gate *)

Lemma validation_gate_table_aux (d : Docker) (w : W) ex rn l0 w0 :
  observe d w = (Ok (ex, rn), l0, w0) ->
  spec_rejects (op d) ex rn = true ->
  run d w = (Ok tt, (l0 ++ [rejection_line d (check_text (op d))])%list, w0)
  /\ engine_commands (trace (run d w)) = [].
Proof.
  intros Hobs Hrej.
  pose proof (run_after_observe d w Hobs) as Hrun.
  rewrite first_check_table, Hrej in Hrun. split; [exact Hrun |].
  rewrite Hrun. unfold trace. cbn [fst snd].
  pose proof (observe_no_commands d w) as Hq. rewrite Hobs in Hq.
  unfold trace in Hq. cbn [fst snd] in Hq.
  unfold engine_commands in *. rewrite filter_app, Hq. reflexivity.
Qed.

(** C1: for every operation and every observed (exists, running), a check
    fires exactly when the table of section 4.1 rejects: Create iff exists;
    Start iff not exists or running; Stop iff not exists or not running;
    Restart and ClearCacheAndRestart iff not exists; RecreateIfExists and
    FullRebuild never.  A rejected run prints one line after the state
    queries and issues no engine command; an accepted run goes on to the
    dispatch. *)
Theorem validation_gate_matches_table (d : Docker) (w : W) ex rn l0 w0 :
  observe d w = (Ok (ex, rn), l0, w0) ->
  (first_check (op d) ex rn (checks ex rn) <> None
   <-> spec_rejects (op d) ex rn = true)
  /\ (spec_rejects (op d) ex rn = true ->
      run d w = (Ok tt, (l0 ++ [rejection_line d (check_text (op d))])%list, w0)
      /\ engine_commands (trace (run d w)) = [])
  /\ (spec_rejects (op d) ex rn = false ->
      run d w = conclude d l0 (dispatch d ex rn w0)).
Proof.
  intros Hobs.
  pose proof (run_after_observe d w Hobs) as Hrun.
  rewrite first_check_table in *.
  split; [| split].
  - destruct (spec_rejects (op d) ex rn); split; congruence.
  - intros Hrej. exact (validation_gate_table_aux d w Hobs Hrej).
  - intros Hacc. rewrite Hacc in Hrun. exact Hrun.
Qed.

(** C2, as the code has it: whatever the observed state, a rejected Start
    prints the text of its check unevaluated, the Python expression
    ['not found' if not exists else 'running'], and a rejected Stop the
    expression ['not found' if not exists else 'not running']; no message
    "already running", "not running" or "not found" on its own is ever
    printed.  No engine command is issued. *)
Theorem start_stop_rejection_text (d : Docker) (w : W) ex rn l0 w0 :
  observe d w = (Ok (ex, rn), l0, w0) ->
  spec_rejects (op d) ex rn = true ->
  (op d = START ->
   run d w =
     (Ok tt,
      (l0 ++ [EPrint ("Container " ++ name d
                      ++ " 'not found' if not exists else 'running'")])%list,
      w0))
  /\ (op d = STOP ->
      run d w =
        (Ok tt,
         (l0 ++ [EPrint ("Container " ++ name d
                         ++ " 'not found' if not exists else 'not running'")])%list,
         w0))
  /\ engine_commands (trace (run d w)) = [].
Proof.
  intros Hobs Hrej.
  destruct (validation_gate_table_aux d w Hobs Hrej) as [Hrun Hcmd].
  repeat split; try exact Hcmd; intros Hop; rewrite Hrun, Hop; reflexivity.
Qed.

(** *** Setup and the state queries *)

(** C9: [exists] and [running] never raise.  When the engine call raises,
    each returns False, which is also what it returns when the call
    completes with an output that does not list the container. *)
Theorem state_queries_swallow_exceptions (d : Docker) (w : W) :
  (exists b w',
      exists_ d w = (Ok b, [ESubprocess (exists_cmd d) captured], w'))
  /\ (exists b w',
      running d w = (Ok b, [ESubprocess (running_cmd d) captured], w'))
  /\ (forall e w',
      subprocess_run (exists_cmd d) captured w = (Raise e, w') ->
      exists_ d w = (Ok false, [ESubprocess (exists_cmd d) captured], w'))
  /\ (forall e w',
      subprocess_run (running_cmd d) captured w = (Raise e, w') ->
      running d w = (Ok false, [ESubprocess (running_cmd d) captured], w'))
  /\ (forall p w',
      subprocess_run (exists_cmd d) captured w = (Ok p, w') ->
      str_in (name d) (stdout p) = false ->
      exists_ d w = (Ok false, [ESubprocess (exists_cmd d) captured], w'))
  /\ (forall p w',
      subprocess_run (running_cmd d) captured w = (Ok p, w') ->
      str_in (name d) (stdout p) = false ->
      running d w = (Ok false, [ESubprocess (running_cmd d) captured], w')).
Proof.
  repeat split.
  - apply exists_total.
  - apply running_total.
  - intros e w' H. rewrite exists_run, H. reflexivity.
  - intros e w' H. rewrite running_run, H. reflexivity.
  - intros p w' H Hn. rewrite exists_run, H, Hn. reflexivity.
  - intros p w' H Hn. rewrite running_run, H, Hn. reflexivity.
Qed.

Lemma run_starts_with_setup (d : Docker) (w : W) :
  exists rest, trace (run d w) = (trace (setup d w) ++ rest)%list.
Proof.
  unfold run. ctl.
  destruct (setup d w) as [[[[] | e] ls] w1]; unfold trace; cbn [fst snd].
  - destruct (exists_total d w1) as (b1 & w2 & E1). rewrite E1.
    destruct (running_total d w2) as (b2 & w3 & E2). rewrite E2.
    destruct (first_check (op d) b1 b2 (checks b1 b2)) as [msg |].
    + unfold print. eexists. repeat rewrite <- app_assoc. reflexivity.
    + destruct (dispatch d b1 b2 w3) as [[[[] | e] ld] w4]; unfold print;
        eexists; repeat rewrite <- app_assoc; reflexivity.
  - unfold print. eexists. reflexivity.
Qed.

(** C10: every run, for every operation and every state of the engine,
    starts with the filesystem setup, before the state queries and the
    checks: a missing project directory is created and, when no Dockerfile
    is there, the template is copied to it. *)
Theorem setup_precedes_validation (d : Docker) (w : W) :
  (exists rest, trace (run d w) = (trace (setup d w) ++ rest)%list)
  /\ (path_exists (dir d) w = false ->
      exists rest, trace (setup d w) = EMkdir (dir d) :: rest)
  /\ (path_exists (dir d) w = true ->
      path_exists (df d) w = false ->
      exists rest,
        trace (setup d w)
        = ECopy (TMPL // "Dockerfile.template") (df d) :: rest)
  /\ (forall w1,
      path_exists (dir d) w = false ->
      path_mkdir (dir d) w = (Ok tt, w1) ->
      path_exists (df d) w1 = false ->
      exists rest,
        trace (setup d w)
        = EMkdir (dir d)
            :: ECopy (TMPL // "Dockerfile.template") (df d) :: rest).
Proof.
  split; [apply run_starts_with_setup |].
  unfold setup, exists_path, mkdir, copy2, dbg, print, trace. ctl.
  repeat split.
  - intros Hd. rewrite Hd. cbn [negb].
    destruct (path_mkdir (dir d) w) as [[[] | e] w1]; cbn [fst snd];
      [| eexists; reflexivity].
    destruct (path_exists (df d) w1); cbn [negb fst snd];
      [eexists; reflexivity |].
    destruct (shutil_copy2 _ _ w1) as [[[] | e] w2]; cbn [fst snd];
      [| eexists; reflexivity].
    destruct (debug d >=? 2)%Z; eexists; reflexivity.
  - intros Hd Hf. rewrite Hd. cbn [negb]. rewrite Hf. cbn [negb].
    destruct (shutil_copy2 _ _ w) as [[[] | e] w2]; cbn [fst snd];
      [| eexists; reflexivity].
    destruct (debug d >=? 2)%Z; eexists; reflexivity.
  - intros w1 Hd Hm Hf. rewrite Hd. cbn [negb]. rewrite Hm, Hf. cbn [negb].
    destruct (shutil_copy2 _ _ w1) as [[[] | e] w2]; cbn [fst snd];
      [| eexists; reflexivity].
    destruct (debug d >=? 2)%Z; eexists; reflexivity.
Qed.

(** *** Building and creating *)

Lemma str_app_assoc (a b c : string) : ((a ++ b) ++ c = a ++ (b ++ c))%string.
Proof. induction a as [| x a IH]; cbn; [reflexivity | now rewrite IH]. Qed.

Lemma dbg_run (d : Docker) (lvl : Z) (msg : string) (w : W) :
  dbg d lvl msg w = (Ok tt, dbg_trace d lvl msg, w).
Proof. unfold dbg, dbg_trace, print. destruct (debug d >=? lvl)%Z; reflexivity. Qed.

Lemma actions_dbg (d : Docker) (lvl : Z) (msg : string) :
  actions (dbg_trace d lvl msg) = [].
Proof. unfold dbg_trace. destruct (debug d >=? lvl)%Z; reflexivity. Qed.

Lemma actions_app (l1 l2 : list Event) :
  actions (l1 ++ l2) = (actions l1 ++ actions l2)%list.
Proof. apply filter_app. Qed.

Lemma actions_cons (e : Event) (l : list Event) :
  actions (e :: l) = if is_action e then e :: actions l else actions l.
Proof. reflexivity. Qed.

Ltac actions_norm :=
  repeat (rewrite actions_app || rewrite actions_dbg || rewrite actions_cons);
  cbn [is_action app actions filter].

Lemma build_run (d : Docker) (w : W) :
  build d w =
    match subprocess_run (build_cmd d) checked w with
    | (Ok _, w1) =>
        (Ok true,
         (dbg_trace d 2 ("Building from " ++ df d ++ "...")
          ++ [ESubprocess (build_cmd d) checked]
          ++ dbg_trace d 2 "Build OK")%list, w1)
    | (Raise e, w1) =>
        (Ok false,
         (dbg_trace d 2 ("Building from " ++ df d ++ "...")
          ++ [ESubprocess (build_cmd d) checked;
              EPrint ("Build failed: " ++ str_exn e)])%list, w1)
    end.
Proof.
  unfold build, subprocess, print. ctl. rewrite dbg_run.
  destruct (subprocess_run (build_cmd d) checked w) as [[p | e] w1].
  - rewrite dbg_run. cbn [app]. rewrite app_nil_r. reflexivity.
  - reflexivity.
Qed.

Lemma create_without_dockerfile (d : Docker) (w : W) :
  path_exists (df d) w = false ->
  create d w = (Ok tt, [EPrint ("No Dockerfile at " ++ df d)], w).
Proof.
  intros H. unfold create, exists_path, print. ctl. rewrite H. reflexivity.
Qed.

Lemma create_build_failed (d : Docker) (w w1 w2 : W) e :
  path_exists (df d) w = true ->
  os_makedirs (ws d) w = (Ok tt, w1) ->
  subprocess_run (build_cmd d) checked w1 = (Raise e, w2) ->
  create d w =
    (Ok tt,
     (EMakedirs (ws d)
        :: dbg_trace d 2 ("Building from " ++ df d ++ "...")
        ++ [ESubprocess (build_cmd d) checked;
            EPrint ("Build failed: " ++ str_exn e)])%list,
     w2).
Proof.
  intros Hf Hm Hb. unfold create, exists_path, makedirs. ctl.
  rewrite Hf. cbn [negb]. rewrite Hm, build_run, Hb. cbn [negb app].
  rewrite app_nil_r. reflexivity.
Qed.

(** The trace of a Create sequence in which every step returns. *)
Lemma create_succeeds (d : Docker) (w w1 w2 w3 : W) p1 p2 :
  path_exists (df d) w = true ->
  os_makedirs (ws d) w = (Ok tt, w1) ->
  subprocess_run (build_cmd d) checked w1 = (Ok p1, w2) ->
  subprocess_run (run_cmd d) checked w2 = (Ok p2, w3) ->
  match script_set d with
  | None => result (create d w) = Ok tt /\ world (create d w) = w3
  | Some s =>
      forall p3 w4,
        subprocess_run (startup_cmd d s) checked w3 = (Ok p3, w4) ->
        result (create d w) = Ok tt /\ world (create d w) = w4
  end
  /\ actions (trace (create d w)) = create_plan d.
Proof.
  intros Hf Hm Hb Hr.
  unfold create, exists_path, makedirs, subprocess, create_plan. ctl.
  rewrite Hf. cbn [negb]. rewrite Hm, build_run, Hb. cbn [negb]. rewrite Hr.
  unfold result, world, trace.
  destruct (script_set d) as [s |].
  - split.
    + intros p3 w4 Hs. rewrite Hs. cbn [fst snd]. split; reflexivity.
    + destruct (subprocess_run (startup_cmd d s) checked w3) as [[p3 | e] w4];
        cbn [fst snd]; actions_norm; reflexivity.
  - cbn [fst snd]. split; [split; reflexivity |].
    actions_norm. reflexivity.
Qed.

(** Whatever the machine answers, [create] performs an initial segment of
    the Create sequence, in order, and nothing else. *)
Lemma create_actions_prefix (d : Docker) (w : W) :
  exists rest, create_plan d = (actions (trace (create d w)) ++ rest)%list.
Proof.
  unfold create, exists_path, makedirs, subprocess, create_plan, trace. ctl.
  destruct (path_exists (df d) w); cbn [negb fst snd];
    [| eexists; unfold print; actions_norm; reflexivity].
  destruct (os_makedirs (ws d) w) as [[[] | e] w1]; cbn [fst snd];
    [| eexists; actions_norm; reflexivity].
  rewrite build_run.
  destruct (subprocess_run (build_cmd d) checked w1) as [[p1 | e] w2];
    cbn [negb fst snd].
  - destruct (subprocess_run (run_cmd d) checked w2) as [[p2 | e] w3];
      cbn [fst snd].
    + destruct (script_set d) as [s |].
      * destruct (subprocess_run (startup_cmd d s) checked w3)
          as [[p3 | e] w4];
          cbn [fst snd]; actions_norm; exists []; reflexivity.
      * cbn [fst snd]. actions_norm. exists []. reflexivity.
    + actions_norm. eexists. reflexivity.
  - actions_norm. eexists. reflexivity.
Qed.

(** *** The dispatch *)

Lemma run_accepted (d : Docker) (w : W) ex rn l0 w0 :
  observe d w = (Ok (ex, rn), l0, w0) ->
  spec_rejects (op d) ex rn = false ->
  run d w = conclude d l0 (dispatch d ex rn w0).
Proof.
  intros Hobs Hacc. rewrite (run_after_observe d w Hobs), first_check_table.
  rewrite Hacc. reflexivity.
Qed.

Lemma conclude_bind_ok {A} (m : Ctl W A) (k : A -> Ctl W unit)
      (d : Docker) l0 w0 a l1 w1 :
  m w0 = (Ok a, l1, w1) ->
  conclude d l0 (bind m k w0) = conclude d (l0 ++ l1) (k a w1).
Proof.
  intros H. ctl. rewrite H. unfold conclude.
  destruct (k a w1) as [[[[] | e] l2] w2]; f_equal; f_equal; trace_eq.
Qed.

Lemma conclude_bind_raise {A} (m : Ctl W A) (k : A -> Ctl W unit)
      (d : Docker) l0 w0 e l1 w1 :
  m w0 = (Raise e, l1, w1) ->
  conclude d l0 (bind m k w0)
  = (Ok tt, (l0 ++ l1 ++ [EPrint (error_line e)])%list, w1).
Proof. intros H. ctl. rewrite H. reflexivity. Qed.

Lemma teardown_run (d : Docker) (ex rn : bool) (w0 : W) :
  teardown d ex rn w0 =
    if ex then
      match subprocess_run ["docker"; if rn then "stop" else "rm"; name d]
                           checked w0 with
      | (Ok _, w1) =>
          (Ok tt,
           [ESubprocess ["docker"; if rn then "stop" else "rm"; name d]
                        checked], w1)
      | (Raise e, w1) =>
          (Raise e,
           [ESubprocess ["docker"; if rn then "stop" else "rm"; name d]
                        checked], w1)
      end
    else (Ok tt, [], w0).
Proof.
  unfold teardown, subprocess. ctl. destruct ex; [| reflexivity].
  destruct (subprocess_run _ checked w0) as [[p | e] w1]; reflexivity.
Qed.

Lemma clear_cache_run (d : Docker) (w0 : W) :
  clear_cache d w0 =
    match subprocess_run (sync_cmd d) checked w0 with
    | (Raise e, w1) =>
        (Ok tt,
         [ESubprocess (sync_cmd d) checked;
          EPrint ("Cache clear failed: " ++ str_exn e)], w1)
    | (Ok _, w1) =>
        match subprocess_run (drop_caches_cmd d) checked w1 with
        | (Raise e, w2) =>
            (Ok tt,
             [ESubprocess (sync_cmd d) checked;
              ESubprocess (drop_caches_cmd d) checked;
              EPrint ("Cache clear failed: " ++ str_exn e)], w2)
        | (Ok _, w2) =>
            (Ok tt,
             ([ESubprocess (sync_cmd d) checked;
               ESubprocess (drop_caches_cmd d) checked]
              ++ dbg_trace d 2 "Cache cleared")%list, w2)
        end
    end.
Proof.
  unfold clear_cache, subprocess, print. ctl.
  destruct (subprocess_run (sync_cmd d) checked w0) as [[p | e] w1];
    [| reflexivity].
  destruct (subprocess_run (drop_caches_cmd d) checked w1) as [[q | e] w2];
    [| reflexivity].
  rewrite dbg_run. reflexivity.
Qed.

(** The tail of the ClearCacheAndRestart dispatch once [clear_cache] has
    returned in [w1] with trace [lc]. *)
Lemma clean_after_clear_cache (d : Docker) (w : W) rn l0 w0 lc w1 :
  op d = CLEAN ->
  observe d w = (Ok (true, rn), l0, w0) ->
  clear_cache d w0 = (Ok tt, lc, w1) ->
  trace (run d w)
  = (l0 ++ lc
        ++ [restart_event d;
            closing_line d
              (fst (subprocess_run ["docker"; "restart"; name d] checked w1))])%list.
Proof.
  intros Hop Hobs Hc.
  rewrite (run_accepted d w Hobs) by (rewrite Hop; reflexivity).
  unfold dispatch. rewrite Hop. erewrite conclude_bind_ok by exact Hc.
  unfold subprocess, restart_event, closing_line, conclude, trace. ctl.
  destruct (subprocess_run ["docker"; "restart"; name d] checked w1)
    as [[p | e] w2]; cbn [fst snd]; trace_eq.
Qed.

(** C3, amended: on an existing container, a failing sync exec skips the
    cache-drop exec, a failing sync or cache-drop exec is reported with the
    line "Cache clear failed", and in both cases the restart command is
    still issued next; the run then closes as the restart decides. *)
Theorem clean_restarts_after_cache_failure (d : Docker) (w : W) rn l0 w0 :
  op d = CLEAN ->
  observe d w = (Ok (true, rn), l0, w0) ->
  (forall e w1,
      subprocess_run (sync_cmd d) checked w0 = (Raise e, w1) ->
      trace (run d w)
      = (l0 ++ [ESubprocess (sync_cmd d) checked;
                EPrint ("Cache clear failed: " ++ str_exn e);
                restart_event d;
                closing_line d
                  (fst (subprocess_run ["docker"; "restart"; name d]
                                       checked w1))])%list)
  /\ (forall p w1 e w2,
      subprocess_run (sync_cmd d) checked w0 = (Ok p, w1) ->
      subprocess_run (drop_caches_cmd d) checked w1 = (Raise e, w2) ->
      trace (run d w)
      = (l0 ++ [ESubprocess (sync_cmd d) checked;
                ESubprocess (drop_caches_cmd d) checked;
                EPrint ("Cache clear failed: " ++ str_exn e);
                restart_event d;
                closing_line d
                  (fst (subprocess_run ["docker"; "restart"; name d]
                                       checked w2))])%list).
Proof.
  intros Hop Hobs. split.
  - intros e w1 Hs.
    pose proof (clear_cache_run d w0) as Hc. rewrite Hs in Hc.
    rewrite (clean_after_clear_cache d w Hop Hobs Hc). reflexivity.
  - intros p w1 e w2 Hs Hd.
    pose proof (clear_cache_run d w0) as Hc. rewrite Hs, Hd in Hc.
    rewrite (clean_after_clear_cache d w Hop Hobs Hc). reflexivity.
Qed.

(** C4, as the code has it: when the build of the Create sequence fails,
    and likewise when no Dockerfile is found, [create] returns normally,
    so the run prints the failure and then the confirmation
    "Operation 'create' completed!". *)
Theorem failed_create_reported_completed (d : Docker) (w : W) rn l0 w0 :
  op d = CREATE ->
  observe d w = (Ok (false, rn), l0, w0) ->
  (forall w1 e w2,
      path_exists (df d) w0 = true ->
      os_makedirs (ws d) w0 = (Ok tt, w1) ->
      subprocess_run (build_cmd d) checked w1 = (Raise e, w2) ->
      run d w
      = (Ok tt,
         (l0 ++ EMakedirs (ws d)
             :: dbg_trace d 2 ("Building from " ++ df d ++ "...")
             ++ [ESubprocess (build_cmd d) checked;
                 EPrint ("Build failed: " ++ str_exn e);
                 EPrint (completed_line d)])%list,
         w2))
  /\ (path_exists (df d) w0 = false ->
      run d w
      = (Ok tt,
         (l0 ++ [EPrint ("No Dockerfile at " ++ df d);
                 EPrint (completed_line d)])%list,
         w0)).
Proof.
  intros Hop Hobs.
  assert (Hrun : run d w = conclude d l0 (create d w0)).
  { rewrite (run_accepted d w Hobs) by (rewrite Hop; reflexivity).
    unfold dispatch. rewrite Hop. reflexivity. }
  rewrite Hrun. split.
  - intros w1 e w2 Hf Hm Hb. rewrite (create_build_failed d _ Hf Hm Hb).
    unfold conclude. f_equal. f_equal. trace_eq.
  - intros Hf. rewrite (create_without_dockerfile d _ Hf). reflexivity.
Qed.

(** *** Create, RecreateIfExists, FullRebuild *)

Lemma create_issues_only_its_plan (d : Docker) (w : W) (e : Event) :
  In e (trace (create d w)) -> is_action e = true -> In e (create_plan d).
Proof.
  intros Hin Hact. destruct (create_actions_prefix d w) as [rest Hp].
  rewrite Hp. apply in_or_app. left. unfold actions.
  apply filter_In. split; assumption.
Qed.

Lemma rm_not_in_create_plan (d : Docker) :
  ~ In (ESubprocess ["docker"; "rm"; name d] checked) (create_plan d).
Proof.
  unfold create_plan, build_cmd, run_cmd, startup_cmd. intros H.
  apply in_app_or in H. destruct H as [H | H].
  - destruct (root d); cbn in H; decompose [or] H; try discriminate;
      contradiction.
  - destruct (script_set d); cbn in H; decompose [or] H; try discriminate;
      contradiction.
Qed.

Lemma observed_trace_has_no_command (d : Docker) (w : W) r l0 w0 (e : Event) :
  observe d w = (r, l0, w0) -> is_engine_command e = true -> ~ In e l0.
Proof.
  intros Hobs He Hin.
  pose proof (observe_no_commands d w) as Hq. rewrite Hobs in Hq.
  unfold trace, engine_commands in Hq. cbn [fst snd] in Hq.
  assert (Hf : In e (filter is_engine_command l0))
    by (apply filter_In; split; assumption).
  rewrite Hq in Hf. exact Hf.
Qed.

Lemma trace_conclude (d : Docker) (pre : list Event)
      (x : Res unit * list Event * W) :
  trace (conclude d pre x)
  = (pre ++ trace x ++ [closing_line d (result x)])%list.
Proof. destruct x as [[[[] | e] l] w]; reflexivity. Qed.

(** C5: Create on a container that does not exist hands over to [create],
    which performs an initial segment of the sequence workspace-ensure,
    build, run, startup exec, in this order and nothing else; the startup
    exec is part of the sequence exactly when a script is configured, and
    it changes to the directory the workspace is mounted on.  When every
    step returns the whole sequence is issued; when the build fails the
    sequence stops there, with no run and no exec. *)
Theorem create_issues_its_sequence (d : Docker) (w : W) rn l0 w0 :
  op d = CREATE ->
  observe d w = (Ok (false, rn), l0, w0) ->
  run d w = conclude d l0 (create d w0)
  /\ create_plan d
     = ([EMakedirs (ws d);
         ESubprocess (build_cmd d) checked;
         ESubprocess (run_cmd d) checked]
        ++ match script_set d with
           | Some s =>
               [ESubprocess
                  ["docker"; "exec"; name d; "bash"; "-c";
                   ("cd " ++ workspace_mount d ++ " && ./" ++ s)%string]
                  checked]
           | None => []
           end)%list
  /\ In (ws d ++ ":" ++ workspace_mount d) (run_cmd d)
  /\ (exists rest,
        create_plan d = (actions (trace (create d w0)) ++ rest)%list)
  /\ (forall w1 p1 w2 p2 w3,
        path_exists (df d) w0 = true ->
        os_makedirs (ws d) w0 = (Ok tt, w1) ->
        subprocess_run (build_cmd d) checked w1 = (Ok p1, w2) ->
        subprocess_run (run_cmd d) checked w2 = (Ok p2, w3) ->
        actions (trace (create d w0)) = create_plan d)
  /\ (forall w1 e w2,
        path_exists (df d) w0 = true ->
        os_makedirs (ws d) w0 = (Ok tt, w1) ->
        subprocess_run (build_cmd d) checked w1 = (Raise e, w2) ->
        actions (trace (create d w0))
        = [EMakedirs (ws d); ESubprocess (build_cmd d) checked]).
Proof.
  intros Hop Hobs. repeat split.
  - rewrite (run_accepted d w Hobs) by (rewrite Hop; reflexivity).
    unfold dispatch. rewrite Hop. reflexivity.
  - unfold create_plan, startup_cmd, workspace_mount.
    destruct (script_set d) as [s |]; [| reflexivity].
    do 5 f_equal. cbn [append]. do 9 f_equal.
    rewrite str_app_assoc. reflexivity.
  - unfold run_cmd, workspace_mount. destruct (root d); cbn [negb].
    + apply in_or_app. left. apply in_or_app. right. right. left.
      reflexivity.
    + apply in_or_app. left. apply in_or_app. left. apply in_or_app. right.
      right. left. reflexivity.
  - apply create_actions_prefix.
  - intros w1 p1 w2 p2 w3 Hf Hm Hb Hr.
    exact (proj2 (create_succeeds d w0 Hf Hm Hb Hr)).
  - intros w1 e w2 Hf Hm Hb. rewrite (create_build_failed d _ Hf Hm Hb).
    unfold trace. cbn [fst snd]. actions_norm. reflexivity.
Qed.

(** C6: RecreateIfExists on a running container issues a stop, no remove,
    and then runs [create]; on a stopped container it issues a remove and
    then runs [create]; on a container that does not exist it runs
    [create] with no engine command before it. *)
Theorem reset_tears_down_then_creates (d : Docker) (w : W) ex rn l0 w0 :
  op d = RESET ->
  observe d w = (Ok (ex, rn), l0, w0) ->
  (ex = true -> rn = true ->
   forall p w1,
     subprocess_run ["docker"; "stop"; name d] checked w0 = (Ok p, w1) ->
     run d w
     = conclude d (l0 ++ [ESubprocess ["docker"; "stop"; name d] checked])
                (create d w1)
     /\ ~ In (ESubprocess ["docker"; "rm"; name d] checked) (trace (run d w)))
  /\ (ex = true -> rn = false ->
      forall p w1,
        subprocess_run ["docker"; "rm"; name d] checked w0 = (Ok p, w1) ->
        run d w
        = conclude d (l0 ++ [ESubprocess ["docker"; "rm"; name d] checked])
                   (create d w1))
  /\ (ex = false ->
      run d w = conclude d l0 (create d w0) /\ engine_commands l0 = []).
Proof.
  intros Hop Hobs.
  assert (Hrun : run d w
                 = conclude d l0 (bind (teardown d ex rn) (fun _ => create d) w0)).
  { rewrite (run_accepted d w Hobs) by (rewrite Hop; reflexivity).
    unfold dispatch. rewrite Hop. reflexivity. }
  pose proof (teardown_run d ex rn w0) as Ht.
  split; [| split].
  - intros -> -> p w1 Hs. rewrite Hs in Ht.
    assert (Heq : run d w
                  = conclude d
                      (l0 ++ [ESubprocess ["docker"; "stop"; name d] checked])
                      (create d w1))
      by (rewrite Hrun;
          exact (conclude_bind_ok (teardown d true true) (fun _ => create d)
                                  d l0 w0 Ht)).
    split; [exact Heq |].
    rewrite Heq, trace_conclude. intros Hin.
    apply in_app_or in Hin. destruct Hin as [Hin | Hin].
    + apply in_app_or in Hin. destruct Hin as [Hin | [Hin | []]].
      * exact (observed_trace_has_no_command
                 d w (ESubprocess ["docker"; "rm"; name d] checked)
                 Hobs eq_refl Hin).
      * discriminate Hin.
    + apply in_app_or in Hin. destruct Hin as [Hin | [Hin | []]].
      * apply create_issues_only_its_plan in Hin; [| reflexivity].
        exact (rm_not_in_create_plan Hin).
      * discriminate Hin.
  - intros -> -> p w1 Hs. rewrite Hs in Ht.
    rewrite Hrun.
    exact (conclude_bind_ok (teardown d true false) (fun _ => create d)
                            d l0 w0 Ht).
  - intros ->. split.
    + rewrite Hrun.
      rewrite (conclude_bind_ok (teardown d false rn) (fun _ => create d)
                                d l0 w0 Ht).
      rewrite app_nil_r. reflexivity.
    + pose proof (observe_no_commands d w) as Hq. rewrite Hobs in Hq.
      exact Hq.
Qed.

(** C7: FullRebuild, whatever the observed state, issues the image removal
    right after the container teardown and before anything of the Create
    sequence; when the image removal fails the run ends there with the
    error line, and when it returns the run goes on with [create]. *)
Theorem nuke_removes_image_before_create (d : Docker) (w : W)
        ex rn l0 w0 lt w1 :
  op d = NUKE ->
  observe d w = (Ok (ex, rn), l0, w0) ->
  teardown d ex rn w0 = (Ok tt, lt, w1) ->
  lt = (if ex
        then [ESubprocess ["docker"; if rn then "stop" else "rm"; name d]
                          checked]
        else [])
  /\ (exists rest, trace (run d w) = (l0 ++ lt ++ rmi_event d :: rest)%list)
  /\ (forall e w2,
        subprocess_run ["docker"; "rmi"; name d] checked w1 = (Raise e, w2) ->
        run d w
        = (Ok tt, (l0 ++ lt ++ [rmi_event d; EPrint (error_line e)])%list, w2))
  /\ (forall p w2,
        subprocess_run ["docker"; "rmi"; name d] checked w1 = (Ok p, w2) ->
        run d w = conclude d (l0 ++ lt ++ [rmi_event d]) (create d w2)).
Proof.
  intros Hop Hobs Ht.
  assert (Hrun : run d w
                 = conclude d (l0 ++ lt)
                     (bind (subprocess ["docker"; "rmi"; name d] checked)
                           (fun _ => create d) w1)).
  { rewrite (run_accepted d w Hobs) by (rewrite Hop; reflexivity).
    unfold dispatch. rewrite Hop.
    exact (conclude_bind_ok (teardown d ex rn) _ d l0 w0 Ht). }
  assert (Hfail : forall e w2,
             subprocess_run ["docker"; "rmi"; name d] checked w1 = (Raise e, w2) ->
             run d w
             = (Ok tt, (l0 ++ lt ++ [rmi_event d; EPrint (error_line e)])%list, w2)).
  { intros e w2 Hs. rewrite Hrun.
    erewrite conclude_bind_raise
      by (unfold subprocess; rewrite Hs; reflexivity).
    f_equal. f_equal. unfold rmi_event. trace_eq. }
  assert (Hok : forall p w2,
             subprocess_run ["docker"; "rmi"; name d] checked w1 = (Ok p, w2) ->
             run d w = conclude d (l0 ++ lt ++ [rmi_event d]) (create d w2)).
  { intros p w2 Hs. rewrite Hrun.
    erewrite conclude_bind_ok
      by (unfold subprocess; rewrite Hs; reflexivity).
    f_equal. unfold rmi_event. trace_eq. }
  repeat split; try assumption.
  - rewrite teardown_run in Ht. destruct ex.
    + destruct (subprocess_run _ checked w0) as [[p | e] w']; [| discriminate].
      now pair_inv Ht.
    + now pair_inv Ht.
  - destruct (subprocess_run ["docker"; "rmi"; name d] checked w1)
      as [[p | e] w2] eqn:Hs.
    + rewrite (Hok _ _ eq_refl), trace_conclude. eexists. trace_eq.
    + rewrite (Hfail _ _ eq_refl). unfold trace. cbn [fst snd].
      eexists. trace_eq.
Qed.

(** *** The run arguments *)

Lemma port_flags_from (ps : list (Z * Z)) (acc : list string) :
  fold_left (fun acc t => (acc ++ t)%list)
            (map (fun hc => ["-p"; str_int (fst hc) ++ ":" ++ str_int (snd hc)])
                 ps)
            acc
  = (acc ++ publish_args ps)%list.
Proof.
  revert acc. induction ps as [| hc ps IH]; intros acc; cbn [map fold_left].
  - cbn. now rewrite app_nil_r.
  - rewrite IH. unfold publish_args. cbn [flat_map].
    now rewrite <- app_assoc.
Qed.

Lemma port_flags_publish (ps : list (Z * Z)) :
  port_flags ps = publish_args ps.
Proof. unfold port_flags. now rewrite port_flags_from. Qed.

Lemma publish_args_length (ps : list (Z * Z)) :
  List.length (publish_args ps) = 2 * List.length ps.
Proof.
  induction ps as [| hc ps IH]; [reflexivity |].
  unfold publish_args in *. cbn [flat_map app List.length]. rewrite IH. lia.
Qed.

Lemma publish_args_nth (ps : list (Z * Z)) (i : nat) (h c : Z) :
  nth_error ps i = Some (h, c) ->
  nth_error (publish_args ps) (2 * i) = Some "-p"
  /\ nth_error (publish_args ps) (S (2 * i))
     = Some (str_int h ++ ":" ++ str_int c).
Proof.
  revert i. induction ps as [| hc ps IH]; intros i Hi.
  - destruct i; discriminate.
  - destruct i as [| i].
    + cbn in Hi. pair_inv Hi. split; reflexivity.
    + cbn [nth_error] in Hi. apply IH in Hi.
      replace (2 * S i) with (S (S (2 * i))) by lia.
      exact Hi.
Qed.

Lemma nth_error_after5 {A} (a b c d e : A) (l : list A) (n : nat) :
  nth_error (a :: b :: c :: d :: e :: l) (5 + n) = nth_error l n.
Proof. reflexivity. Qed.

Lemma skipn_after5 {A} (a b c d e : A) (l : list A) (n : nat) :
  skipn (5 + n) (a :: b :: c :: d :: e :: l) = skipn n l.
Proof. reflexivity. Qed.

(** C8: the command built by [run_cmd] is [docker run] in detached mode
    under the name of the container, followed by one [-p host:container]
    pair per configured port in the configured order, one [-v] bind mount
    of the workspace on /home/<user>/workspace, a [-u <user>] pair exactly
    when root mode is off, and the image name. *)
Theorem run_cmd_arguments (d : Docker) :
  run_cmd d
  = (["docker"; "run"; "-d"; "--name"; name d]
     ++ publish_args (ports d)
     ++ ["-v"; (ws d ++ ":" ++ workspace_mount d)%string]
     ++ (if root d then [] else ["-u"; user d])
     ++ [name d])%list
  /\ List.length (port_flags (ports d)) = 2 * List.length (ports d)
  /\ (forall i h c,
        nth_error (ports d) i = Some (h, c) ->
        nth_error (run_cmd d) (5 + 2 * i) = Some "-p"
        /\ nth_error (run_cmd d) (6 + 2 * i)
           = Some (str_int h ++ ":" ++ str_int c))
  /\ nth_error (run_cmd d) (5 + 2 * List.length (ports d)) = Some "-v"
  /\ nth_error (run_cmd d) (6 + 2 * List.length (ports d))
     = Some (ws d ++ ":/home/" ++ user d ++ "/workspace")
  /\ skipn (7 + 2 * List.length (ports d)) (run_cmd d)
     = (if root d then [name d] else ["-u"; user d; name d])
  /\ port_flags [(8080, 80); (2222, 22)]%Z
     = ["-p"; "8080:80"; "-p"; "2222:22"].
Proof.
  assert (Hshape :
    run_cmd d
    = (["docker"; "run"; "-d"; "--name"; name d]
       ++ publish_args (ports d)
       ++ ["-v"; (ws d ++ ":" ++ workspace_mount d)%string]
       ++ (if root d then [] else ["-u"; user d])
       ++ [name d])%list).
  { unfold run_cmd. rewrite port_flags_publish. unfold workspace_mount.
    destruct (root d); cbn [negb]; trace_eq. }
  split; [exact Hshape |].
  split; [rewrite port_flags_publish; apply publish_args_length |].
  split; [| split; [| split; [| split]]].
  - intros i h c Hi. rewrite Hshape.
    destruct (publish_args_nth _ _ Hi) as [Hp Hhc].
    assert (Hlt : i < List.length (ports d))
      by (apply nth_error_Some; rewrite Hi; discriminate).
    pose proof (publish_args_length (ports d)) as Hlen.
    change (6 + 2 * i) with (5 + S (2 * i)).
    cbn [app]. rewrite !nth_error_after5.
    rewrite !nth_error_app1 by lia. split; assumption.
  - rewrite Hshape. cbn [app]. rewrite nth_error_after5.
    rewrite nth_error_app2 by (rewrite publish_args_length; lia).
    rewrite publish_args_length, Nat.sub_diag. reflexivity.
  - rewrite Hshape.
    change (6 + 2 * List.length (ports d))
      with (5 + S (2 * List.length (ports d))).
    cbn [app]. rewrite nth_error_after5.
    rewrite nth_error_app2 by (rewrite publish_args_length; lia).
    rewrite publish_args_length.
    replace (S (2 * List.length (ports d)) - 2 * List.length (ports d)) with 1 by lia.
    reflexivity.
  - rewrite Hshape.
    replace (7 + 2 * List.length (ports d))
      with (5 + (2 * List.length (ports d) + 2)) by lia.
    cbn [app]. rewrite skipn_after5.
    rewrite skipn_app, publish_args_length.
    rewrite skipn_all2 by (rewrite publish_args_length; lia).
    replace (2 * List.length (ports d) + 2 - 2 * List.length (ports d))
      with 2 by lia.
    destruct (root d); reflexivity.
  - reflexivity.
Qed.

End Facts.

(** * Further properties of the run *)

Section Outcomes.

Context {W : Type} {RT : Runtime W}.

(** *** The run as an error boundary *)

Lemma observe_cases (d : Docker) (w : W) :
  (exists e ls w1,
      setup d w = (Raise e, ls, w1) /\ observe d w = (Raise e, ls, w1))
  \/ (exists ex rn l0 w0, observe d w = (Ok (ex, rn), l0, w0)).
Proof.
  unfold observe. ctl.
  destruct (setup d w) as [[[[] | e] ls] w1].
  - right. destruct (exists_total d w1) as (b1 & w2 & E1). rewrite E1.
    destruct (running_total d w2) as (b2 & w3 & E2). rewrite E2.
    eauto.
  - left. eauto.
Qed.

Lemma run_setup_raised (d : Docker) (w : W) e ls w1 :
  setup d w = (Raise e, ls, w1) ->
  run d w = (Ok tt, (ls ++ [EPrint (error_line e)])%list, w1).
Proof. intros H. unfold run. ctl. rewrite H. reflexivity. Qed.


Lemma setup_runs_no_subprocess (d : Docker) (w : W) :
  filter is_subprocess (trace (setup d w)) = [].
Proof.
  unfold setup, exists_path, mkdir, copy2, dbg, print. ctl.
  destruct (path_exists (dir d) w); cbn [negb].
  - destruct (path_exists (df d) w); cbn [negb]; [reflexivity |].
    destruct (shutil_copy2 _ _ w) as [[[] | e] w1]; [| reflexivity].
    destruct (debug d >=? 2)%Z; reflexivity.
  - destruct (path_mkdir (dir d) w) as [[[] | e] w1]; [| reflexivity].
    destruct (path_exists (df d) w1); cbn [negb]; [reflexivity |].
    destruct (shutil_copy2 _ _ w1) as [[[] | e] w2]; [| reflexivity].
    destruct (debug d >=? 2)%Z; reflexivity.
Qed.

(** X2: when the filesystem setup raises (the project directory cannot be
    made, the template cannot be copied), the run ends there with the
    error line: no state query and no engine command is issued, whatever
    the operation. *)
Theorem setup_failure_stops_run (d : Docker) (w : W) e ls w1 :
  setup d w = (Raise e, ls, w1) ->
  run d w = (Ok tt, (ls ++ [EPrint (error_line e)])%list, w1)
  /\ filter is_subprocess (trace (run d w)) = [].
Proof.
  intros Hs. split; [exact (run_setup_raised d w Hs) |].
  rewrite (run_setup_raised d w Hs). unfold trace. cbn [fst snd].
  pose proof (setup_runs_no_subprocess d w) as Hf. rewrite Hs in Hf.
  unfold trace in Hf. cbn [fst snd] in Hf.
  rewrite filter_app, Hf. reflexivity.
Qed.

(** X8: on a project that is already set up (directory and Dockerfile
    present) the setup does nothing, in particular it never copies the
    template over the Dockerfile, and the run opens with exactly the two
    state queries. *)
Theorem prepared_project_is_left_alone (d : Docker) (w : W) :
  path_exists (dir d) w = true ->
  path_exists (df d) w = true ->
  setup d w = (Ok tt, [], w)
  /\ trace (observe d w)
     = [ESubprocess (exists_cmd d) captured;
        ESubprocess (running_cmd d) captured].
Proof.
  intros Hd Hf.
  assert (Hs : setup d w = (Ok tt, [], w)).
  { unfold setup, exists_path. ctl. rewrite Hd. cbn [negb]. rewrite Hf.
    reflexivity. }
  split; [exact Hs |].
  unfold observe. ctl. rewrite Hs.
  destruct (exists_total d w) as (b1 & w2 & E1). rewrite E1.
  destruct (running_total d w2) as (b2 & w3 & E2). rewrite E2.
  reflexivity.
Qed.

(** *** Start, Stop, Restart *)

Lemma plain_dispatch (d : Docker) (ex rn : bool) :
  is_plain (op d) = true ->
  dispatch d ex rn = (subprocess (plain_cmd d) checked ;; ret tt).
Proof.
  intros Hp. unfold dispatch, plain_cmd.
  destruct (op d); try discriminate Hp; reflexivity.
Qed.

(** X3: an accepted Start, Stop or Restart issues exactly one engine
    command, [docker <operation> <name>], and closes with the confirmation
    when that command returns and with the error line when it raises. *)
Theorem plain_operation_issues_one_command (d : Docker) (w : W) ex rn l0 w0 :
  is_plain (op d) = true ->
  observe d w = (Ok (ex, rn), l0, w0) ->
  spec_rejects (op d) ex rn = false ->
  trace (run d w)
  = (l0 ++ [ESubprocess (plain_cmd d) checked;
            closing_line d (fst (subprocess_run (plain_cmd d) checked w0))])%list
  /\ engine_commands (trace (run d w)) = [ESubprocess (plain_cmd d) checked].
Proof.
  intros Hp Ho Hacc.
  assert (Hq : engine_commands l0 = []).
  { pose proof (observe_no_commands d w) as Hq. rewrite Ho in Hq. exact Hq. }
  assert (Ht : trace (run d w)
               = (l0 ++ [ESubprocess (plain_cmd d) checked;
                         closing_line d
                           (fst (subprocess_run (plain_cmd d) checked w0))])%list).
  { rewrite (run_accepted d w Ho Hacc), (plain_dispatch d ex rn Hp).
    unfold subprocess, conclude, closing_line, trace. ctl.
    destruct (subprocess_run (plain_cmd d) checked w0) as [[p | e] w1];
      cbn [fst snd]; trace_eq. }
  split; [exact Ht |].
  rewrite Ht. unfold engine_commands in *. rewrite filter_app, Hq.
  unfold plain_cmd, closing_line.
  destruct (op d); try discriminate Hp; reflexivity.
Qed.

(** *** ClearCacheAndRestart, RecreateIfExists, FullRebuild *)

(** X5: ClearCacheAndRestart on an existing container whose two execs
    return issues the sync, then the cache drop, then the restart, in this
    order and nothing else. *)
Theorem clean_runs_sync_drop_restart (d : Docker) (w : W)
        rn l0 w0 p1 w1 p2 w2 :
  op d = CLEAN ->
  observe d w = (Ok (true, rn), l0, w0) ->
  subprocess_run (sync_cmd d) checked w0 = (Ok p1, w1) ->
  subprocess_run (drop_caches_cmd d) checked w1 = (Ok p2, w2) ->
  trace (run d w)
  = (l0 ++ [ESubprocess (sync_cmd d) checked;
            ESubprocess (drop_caches_cmd d) checked]
        ++ dbg_trace d 2 "Cache cleared"
        ++ [restart_event d;
            closing_line d
              (fst (subprocess_run ["docker"; "restart"; name d]
                                   checked w2))])%list.
Proof.
  intros Hop Ho Hs Hd.
  pose proof (clear_cache_run d w0) as Hc. rewrite Hs, Hd in Hc.
  rewrite (clean_after_clear_cache d w Hop Ho Hc). trace_eq.
Qed.

(** X6: when the teardown command of RecreateIfExists or FullRebuild
    raises (the stop of a running container, the remove of a stopped one),
    the run ends there with the error line: no image removal and nothing
    of the Create sequence follows. *)
Theorem failed_teardown_aborts (d : Docker) (w : W) rn l0 w0 e w1 :
  op d = RESET \/ op d = NUKE ->
  observe d w = (Ok (true, rn), l0, w0) ->
  subprocess_run ["docker"; if rn then "stop" else "rm"; name d] checked w0
  = (Raise e, w1) ->
  run d w
  = (Ok tt, (l0 ++ [teardown_event d rn; EPrint (error_line e)])%list, w1).
Proof.
  intros Hop Ho Hs.
  pose proof (teardown_run d true rn w0) as Ht. rewrite Hs in Ht.
  destruct Hop as [Hop | Hop];
    (rewrite (run_accepted d w Ho) by (rewrite Hop; reflexivity));
    unfold dispatch; rewrite Hop;
    erewrite conclude_bind_raise by exact Ht; reflexivity.
Qed.

(** *** When the confirmation is printed *)

Lemma quiet_ret {A} (f : Event -> bool) (a : A) : quiet f (ret a : Ctl W A).
Proof. intros w. reflexivity. Qed.

Lemma quiet_bind {A B} (f : Event -> bool) (m : Ctl W A) (k : A -> Ctl W B) :
  quiet f m -> (forall a, quiet f (k a)) -> quiet f (bind m k).
Proof.
  unfold quiet, trace. intros Hm Hk w. specialize (Hm w). ctl.
  destruct (m w) as [[[a | e] l1] w1]; cbn [fst snd] in *; [| exact Hm].
  specialize (Hk a w1). destruct (k a w1) as [[r l2] w2].
  cbn [fst snd] in *. rewrite filter_app, Hm, Hk. reflexivity.
Qed.

Lemma quiet_catch {A} (f : Event -> bool) (m : Ctl W A) (h : Exn -> Ctl W A) :
  quiet f m -> (forall e, quiet f (h e)) -> quiet f (catch m h).
Proof.
  unfold quiet, trace. intros Hm Hh w. specialize (Hm w). ctl.
  destruct (m w) as [[[a | e] l1] w1]; cbn [fst snd] in *; [exact Hm |].
  specialize (Hh e w1). destruct (h e w1) as [[r l2] w2].
  cbn [fst snd] in *. rewrite filter_app, Hm, Hh. reflexivity.
Qed.

Lemma quiet_print (f : Event -> bool) (line : string) :
  f (EPrint line) = false -> quiet f (print line : Ctl W unit).
Proof. intros H w. unfold print, trace. cbn. rewrite H. reflexivity. Qed.

Lemma quiet_subprocess (f : Event -> bool) (argv : list string) (o : RunOpts) :
  f (ESubprocess argv o) = false -> quiet f (subprocess argv o).
Proof.
  intros H w. unfold subprocess, trace.
  destruct (subprocess_run argv o w) as [r w1]. cbn. rewrite H. reflexivity.
Qed.

Lemma quiet_exists_path (f : Event -> bool) (p : string) :
  quiet f (exists_path p).
Proof. intros w. reflexivity. Qed.

Lemma quiet_mkdir (f : Event -> bool) (p : string) :
  f (EMkdir p) = false -> quiet f (mkdir p).
Proof.
  intros H w. unfold mkdir, trace.
  destruct (path_mkdir p w) as [r w1]. cbn. rewrite H. reflexivity.
Qed.

Lemma quiet_copy2 (f : Event -> bool) (src dst : string) :
  f (ECopy src dst) = false -> quiet f (copy2 src dst).
Proof.
  intros H w. unfold copy2, trace.
  destruct (shutil_copy2 src dst w) as [r w1]. cbn. rewrite H. reflexivity.
Qed.

Lemma quiet_makedirs (f : Event -> bool) (p : string) :
  f (EMakedirs p) = false -> quiet f (makedirs p).
Proof.
  intros H w. unfold makedirs, trace.
  destruct (os_makedirs p w) as [r w1]. cbn. rewrite H. reflexivity.
Qed.

Lemma dbg_is_no_confirmation (d : Docker) (lvl : Z) (msg : string) :
  quiet is_confirmation (dbg d lvl msg : Ctl W unit).
Proof.
  unfold dbg. destruct (debug d >=? lvl)%Z.
  - apply quiet_print. reflexivity.
  - apply quiet_ret.
Qed.

Ltac quiet_leaf :=
  first [ apply quiet_ret
        | apply quiet_exists_path
        | apply dbg_is_no_confirmation
        | apply quiet_print; reflexivity
        | apply quiet_subprocess; reflexivity
        | apply quiet_mkdir; reflexivity
        | apply quiet_copy2; reflexivity
        | apply quiet_makedirs; reflexivity ].

(** Walks down a computation written with bind, catch and conditionals. *)
Ltac quiet_walk :=
  lazymatch goal with
  | |- quiet _ (bind _ _) =>
      apply quiet_bind; [quiet_walk | intros ?; quiet_walk]
  | |- quiet _ (catch _ _) =>
      apply quiet_catch; [quiet_walk | intros ?; quiet_walk]
  | |- quiet _ (if ?b then _ else _) => destruct b; quiet_walk
  | |- quiet _ (match ?x with Some _ => _ | None => _ end) =>
      destruct x; quiet_walk
  | |- _ => quiet_leaf
  end.

Lemma setup_prints_no_confirmation (d : Docker) :
  quiet is_confirmation (setup d).
Proof. unfold setup. quiet_walk. Qed.

Lemma observe_prints_no_confirmation (d : Docker) :
  quiet is_confirmation (observe d).
Proof.
  unfold observe, exists_, running.
  apply quiet_bind; [apply setup_prints_no_confirmation | intros _].
  quiet_walk.
Qed.

Lemma create_prints_no_confirmation (d : Docker) :
  quiet is_confirmation (create d).
Proof. unfold create, build. quiet_walk. Qed.

Lemma dispatch_prints_no_confirmation (d : Docker) (ex rn : bool) :
  quiet is_confirmation (dispatch d ex rn).
Proof.
  unfold dispatch, clear_cache, teardown.
  destruct (op d); try apply create_prints_no_confirmation;
    try (apply quiet_bind;
         [quiet_walk
         | intros _; first [ apply create_prints_no_confirmation
                           | apply quiet_bind;
                             [quiet_walk
                             | intros _; apply create_prints_no_confirmation]
                           | quiet_walk ]]).
Qed.

Lemma confirmation_is_selected (d : Docker) :
  is_confirmation (EPrint (completed_line d)) = true.
Proof. reflexivity. Qed.

Lemma error_line_is_no_confirmation (e : Exn) :
  is_confirmation (EPrint (error_line e)) = false.
Proof. destruct e; reflexivity. Qed.

Lemma not_in_quiet_trace (l : list Event) (ev : Event) :
  filter is_confirmation l = [] -> is_confirmation ev = true -> ~ In ev l.
Proof.
  intros Hq Hev Hin.
  assert (Hf : In ev (filter is_confirmation l))
    by (apply filter_In; split; assumption).
  rewrite Hq in Hf. exact Hf.
Qed.

(** X4: the confirmation "Operation '<op>' completed!" appears in the
    output of a run exactly when the setup returned, no check fired and
    the dispatch returned normally; it is never printed after a rejection
    or after an exception. *)
Theorem confirmation_iff_dispatch_returns (d : Docker) (w : W) :
  In (EPrint (completed_line d)) (trace (run d w))
  <-> exists ex rn l0 w0,
        observe d w = (Ok (ex, rn), l0, w0)
        /\ spec_rejects (op d) ex rn = false
        /\ result (dispatch d ex rn w0) = Ok tt.
Proof.
  split.
  - intros Hin.
    destruct (observe_cases d w)
      as [(e & ls & w1 & Hs & Ho) | (ex & rn & l0 & w0 & Ho)].
    + exfalso. rewrite (run_setup_raised d w Hs) in Hin.
      unfold trace in Hin. cbn [fst snd] in Hin.
      revert Hin. apply not_in_quiet_trace; [| reflexivity].
      pose proof (observe_prints_no_confirmation d w) as Hq.
      rewrite Ho in Hq. unfold trace in Hq. cbn [fst snd] in Hq.
      rewrite filter_app, Hq. cbn [filter].
      rewrite error_line_is_no_confirmation. reflexivity.
    + pose proof (observe_prints_no_confirmation d w) as Hq.
      rewrite Ho in Hq. unfold trace in Hq. cbn [fst snd] in Hq.
      exists ex, rn, l0, w0. split; [exact Ho |].
      rewrite (run_after_observe d w Ho), first_check_table in Hin.
      destruct (spec_rejects (op d) ex rn).
      * exfalso. unfold trace in Hin. cbn [fst snd] in Hin.
        revert Hin. apply not_in_quiet_trace; [| reflexivity].
        rewrite filter_app, Hq. reflexivity.
      * split; [reflexivity |].
        pose proof (dispatch_prints_no_confirmation d ex rn w0) as Hd.
        unfold conclude, result, trace in *.
        destruct (dispatch d ex rn w0) as [[[[] | e] ld] w1];
          cbn [fst snd] in *; [reflexivity |].
        exfalso. revert Hin. apply not_in_quiet_trace; [| reflexivity].
        rewrite !filter_app, Hq, Hd. cbn [filter].
        rewrite error_line_is_no_confirmation. reflexivity.
  - intros (ex & rn & l0 & w0 & Ho & Hacc & Hd).
    rewrite (run_accepted d w Ho Hacc). unfold conclude, result, trace in *.
    destruct (dispatch d ex rn w0) as [[[[] | e] ld] w1];
      cbn [fst snd] in *; [| discriminate].
    apply in_or_app. right. apply in_or_app. right. left. reflexivity.
Qed.

(** *** The state queries and the build, once more *)

Lemma prefix_iff (a b : string) :
  String.prefix a b = true <-> exists r, b = (a ++ r)%string.
Proof.
  revert b. induction a as [| x a IH]; intros b.
  - split; [intros _; now exists b | intros _; now destruct b].
  - destruct b as [| y b]; cbn.
    + split; [discriminate | intros [r Hr]; discriminate].
    + destruct (ascii_dec x y) as [-> | Hne].
      * rewrite IH. split; intros [r Hr]; exists r.
        -- now rewrite Hr.
        -- now inversion Hr.
      * split; [discriminate |].
        intros [r Hr]. inversion Hr. now contradiction Hne.
Qed.

Lemma str_in_iff (needle hay : string) :
  str_in needle hay = true
  <-> exists pre post, hay = (pre ++ needle ++ post)%string.
Proof.
  induction hay as [| c hay IH]; cbn [str_in].
  - rewrite prefix_iff. split.
    + intros [r Hr]. destruct needle; [| discriminate].
      now exists EmptyString, EmptyString.
    + intros (pre & post & H). destruct pre; [| discriminate].
      cbn in H. destruct needle; [| discriminate]. now exists EmptyString.
  - rewrite orb_true_iff, prefix_iff, IH. split.
    + intros [[r Hr] | (pre & post & H)].
      * now exists EmptyString, r.
      * exists (String c pre), post. cbn. now rewrite H.
    + intros (pre & post & H). destruct pre as [| x pre].
      * left. now exists post.
      * right. cbn in H. inversion H. now exists pre, post.
Qed.

(** X7: when the engine answers a state query, [exists] (and likewise
    [running]) is True exactly when the name of the container occurs
    somewhere in the output, as a substring and whatever the return code:
    a longer name that contains it counts as well. *)
Theorem state_query_is_a_substring_test (d : Docker) (w : W) :
  (forall p w',
      subprocess_run (exists_cmd d) captured w = (Ok p, w') ->
      (result (exists_ d w) = Ok true
       <-> exists pre post, stdout p = (pre ++ name d ++ post)%string))
  /\ (forall p w',
        subprocess_run (running_cmd d) captured w = (Ok p, w') ->
        (result (running d w) = Ok true
         <-> exists pre post, stdout p = (pre ++ name d ++ post)%string)).
Proof.
  split; intros p w' Hs.
  - rewrite exists_run, Hs. unfold result. cbn [fst].
    rewrite <- str_in_iff. split; [intros H; now pair_inv H | now intros ->].
  - rewrite running_run, Hs. unfold result. cbn [fst].
    rewrite <- str_in_iff. split; [intros H; now pair_inv H | now intros ->].
Qed.


(** *** Failures inside the Create sequence *)

Ltac actions_only :=
  repeat (rewrite actions_app || rewrite actions_dbg || rewrite actions_cons);
  cbn [is_action app actions filter].

(** X18: inside the Create sequence a failure of the workspace
    [os.makedirs] or of [docker run] is not caught by [create]: the run
    ends at that step with the error line, without confirmation; after a
    failed [makedirs] no engine command is issued at all, after a failed
    [docker run] the startup script is not executed. *)
Theorem create_lets_makedirs_and_run_failures_out
        (d : Docker) (w : W) rn l0 w0 :
  op d = CREATE ->
  observe d w = (Ok (false, rn), l0, w0) ->
  path_exists (df d) w0 = true ->
  (forall e w1,
      os_makedirs (ws d) w0 = (Raise e, w1) ->
      run d w
      = (Ok tt, (l0 ++ [EMakedirs (ws d); EPrint (error_line e)])%list, w1))
  /\ (forall w1 p w2 e w3,
        os_makedirs (ws d) w0 = (Ok tt, w1) ->
        subprocess_run (build_cmd d) checked w1 = (Ok p, w2) ->
        subprocess_run (run_cmd d) checked w2 = (Raise e, w3) ->
        actions (trace (run d w))
        = (actions l0
           ++ [EMakedirs (ws d);
               ESubprocess (build_cmd d) checked;
               ESubprocess (run_cmd d) checked])%list
        /\ last (trace (run d w)) (EPrint EmptyString)
           = EPrint (error_line e)).
Proof.
  intros Hop Ho Hf.
  assert (Hrun : run d w = conclude d l0 (create d w0)).
  { rewrite (run_accepted d w Ho) by (rewrite Hop; reflexivity).
    unfold dispatch. rewrite Hop. reflexivity. }
  rewrite Hrun. split.
  - intros e w1 Hm. unfold create, exists_path, makedirs. ctl.
    rewrite Hf. cbn [negb]. rewrite Hm. reflexivity.
  - intros w1 p w2 e w3 Hm Hb Hr.
    unfold create, exists_path, makedirs, subprocess. ctl.
    rewrite Hf. cbn [negb]. rewrite Hm, build_run, Hb. cbn [negb].
    rewrite Hr. unfold conclude, trace. cbn [fst snd]. split.
    + actions_only. reflexivity.
    + rewrite app_assoc. apply last_last.
Qed.

End Outcomes.

(** * Properties of the construction *)

Section Built.

Context {HOST : Host}.

Lemma map_crash_Forall2 {A B} (f : A -> Crash + B) (l : list A) (ys : list B) :
  map_crash f l = inr ys -> Forall2 (fun x y => f x = inr y) l ys.
Proof.
  revert ys. induction l as [| x l IH]; intros ys H; cbn in H.
  - pair_inv H. constructor.
  - destruct (f x) as [c | y] eqn:Hx; [discriminate |].
    destruct (map_crash f l) as [c | ys'] eqn:Hl; [discriminate |].
    pair_inv H. constructor; [exact Hx | apply IH; reflexivity].
Qed.

Lemma map_crash_In {A B} (f : A -> Crash + B) (l : list A) (x : A) (c : Crash) :
  In x l -> f x = inl c -> exists c', map_crash f l = inl c'.
Proof.
  induction l as [| y l IH]; intros Hin Hx; [contradiction |].
  cbn. destruct Hin as [-> | Hin].
  - rewrite Hx. eauto.
  - destruct (f y); [eauto |].
    destruct (IH Hin Hx) as [c' ->]. eauto.
Qed.

Lemma int_or_crash_inr (s : string) (n : Z) :
  int_or_crash s = inr n -> int_ s = Some n.
Proof.
  unfold int_or_crash. destruct (int_ s); intros H; now pair_inv H.
Qed.

Lemma cli_port_parses (p : string) (hc : Z * Z) :
  cli_port p = inr hc -> port_parses p hc.
Proof.
  unfold cli_port, port_parses.
  destruct (split_on ":" p) as [| h [| c [| x rest]]]; try discriminate.
  destruct (int_or_crash h) as [e | hz] eqn:Hh; [discriminate |].
  destruct (int_or_crash c) as [e | cz] eqn:Hc; [discriminate |].
  intros H. pair_inv H. exists h, c.
  repeat split; now apply int_or_crash_inr.
Qed.

Lemma cli_port_unpack (p : string) :
  List.length (split_on ":" p) <> 2 ->
  cli_port p = inl (ValueError_unpack (List.length (split_on ":" p))).
Proof.
  unfold cli_port.
  destruct (split_on ":" p) as [| h [| c [| x rest]]]; cbn; intros H;
    try reflexivity.
  now contradiction H.
Qed.

Lemma main_object_built (args : Namespace) (d : Docker) :
  main_object args = Built d ->
  exists ps o,
    map_crash cli_port
              (match arg_ports args with Some l => l | None => [] end)
    = inr ps
    /\ Op_getitem (upper (arg_operation args)) = Some o
    /\ Docker_init (arg_container_name args) o
                   (arg_username args) (arg_password args)
                   (arg_workspace args) (arg_startup_script args)
                   (Some ps) (Some (arg_root args)) (arg_debug args)
       = Built d.
Proof.
  unfold main_object.
  destruct (map_crash cli_port _) as [c | ps]; [discriminate |].
  destruct (Op_getitem (upper (arg_operation args))) as [o |];
    [| discriminate].
  eauto.
Qed.

(** The fields of an object that [__init__] has built. *)
Lemma init_built (n : string) (o : Op) (u p w s : option string)
      (ports_ : option (list (Z * Z))) (root_ : option bool) (dbg_ : Z)
      (d : Docker) :
  Docker_init n o u p w s ports_ root_ dbg_ = Built d ->
  name d = n /\ op d = o
  /\ user d = or_str u (ENV_USER ENV)
  /\ pwd d = or_str p (ENV_PASS ENV)
  /\ ws d = os_path_abspath (or_str w (ENV_WORKSPACE ENV))
  /\ script d = or_opt s (ENV_STARTUP ENV)
  /\ (forall b, root_ = Some b -> root d = b)
  /\ (dbg_ <> 0%Z -> debug d = dbg_)
  /\ (dbg_ = 0%Z -> int_ (ENV_DEBUG ENV) = Some (debug d))
  /\ (forall q qs, ports_ = Some (q :: qs) -> ports d = q :: qs)
  /\ (ports_ = None \/ ports_ = Some [] ->
      match ENV_PORTS ENV with
      | EmptyString => ports d = []
      | String _ _ =>
          exists tuples,
            env_ports = inr tuples /\ pairs_of tuples = Some (ports d)
      end).
Proof.
  unfold Docker_init.
  destruct (match root_ with Some b => _ | None => _ end)
    as [c | root'] eqn:Hroot; [discriminate |].
  destruct (if (dbg_ =? 0)%Z then _ else _) as [c | debug'] eqn:Hdbg;
    [discriminate |].
  assert (Hr : forall b, root_ = Some b -> root' = b).
  { intros b ->. now pair_inv Hroot. }
  assert (Hd1 : dbg_ <> 0%Z -> debug' = dbg_).
  { intros Hne. apply Z.eqb_neq in Hne. rewrite Hne in Hdbg.
    now pair_inv Hdbg. }
  assert (Hd2 : dbg_ = 0%Z -> int_ (ENV_DEBUG ENV) = Some debug').
  { intros ->. cbn in Hdbg. now apply int_or_crash_inr. }
  destruct ports_ as [[| q qs] |].
  - destruct (ENV_PORTS ENV) as [| c0 rest] eqn:Hp.
    + intros H. pair_inv H. cbn. repeat split; auto; try discriminate.
    + destruct env_ports as [c | tuples]; [discriminate |].
      destruct (pairs_of tuples) as [ps |] eqn:Hps; [| discriminate].
      intros H. pair_inv H. cbn. repeat split; auto; try discriminate.
      intros _. eauto.
  - intros H. pair_inv H. cbn. repeat split; auto; try discriminate.
    + intros q' qs' Heq. now pair_inv Heq.
    + intros [Hn | Hn]; discriminate.
  - destruct (ENV_PORTS ENV) as [| c0 rest] eqn:Hp.
    + intros H. pair_inv H. cbn. repeat split; auto; try discriminate.
    + destruct env_ports as [c | tuples]; [discriminate |].
      destruct (pairs_of tuples) as [ps |] eqn:Hps; [| discriminate].
      intros H. pair_inv H. cbn. repeat split; auto; try discriminate.
      intros _. eauto.
Qed.

Lemma word_resolves (word : string) :
  In word choices -> exists o, Op_getitem (upper word) = Some o.
Proof.
  unfold choices. cbn [map all_ops In].
  intros Hw. decompose [or] Hw; clear Hw; try contradiction; subst word;
    eexists; reflexivity.
Qed.

(** X10: every operation word the parser accepts resolves to a member of
    [Op] (no [KeyError]), and the word quoted by the confirmation of that
    operation is the word that was typed. *)
Theorem operation_word_round_trip (word : string) :
  In word choices ->
  exists o,
    Op_getitem (upper word) = Some o
    /\ lower (Op_name o) = word
    /\ forall d, op d = o ->
                 completed_line d = "Operation '" ++ word ++ "' completed!".
Proof.
  unfold choices. cbn [map all_ops In].
  intros Hw. decompose [or] Hw; clear Hw; try contradiction; subst word.
  - exists CREATE. repeat split. intros d Hd. unfold completed_line.
    rewrite Hd. reflexivity.
  - exists START. repeat split. intros d Hd. unfold completed_line.
    rewrite Hd. reflexivity.
  - exists STOP. repeat split. intros d Hd. unfold completed_line.
    rewrite Hd. reflexivity.
  - exists RESTART. repeat split. intros d Hd. unfold completed_line.
    rewrite Hd. reflexivity.
  - exists CLEAN. repeat split. intros d Hd. unfold completed_line.
    rewrite Hd. reflexivity.
  - exists RESET. repeat split. intros d Hd. unfold completed_line.
    rewrite Hd. reflexivity.
  - exists NUKE. repeat split. intros d Hd. unfold completed_line.
    rewrite Hd. reflexivity.
Qed.

(** X12: the object built by [main] takes each of name, user, password,
    workspace and startup script from the command line when the argument
    is given and not empty, else from its DOCKER_ variable when that is
    set (an empty value is used as it is), else from the built-in
    default; the workspace is made absolute; the operation is the member
    of [Op] named by the upper-cased word. *)
Theorem explicit_then_environment_then_default (args : Namespace) (d : Docker) :
  main_object args = Built d ->
  name d = arg_container_name args
  /\ Op_name (op d) = upper (arg_operation args)
  /\ user d
     = or_str (arg_username args)
              (match os_getenv "DOCKER_USER" with
               | Some v => v
               | None => "developer"
               end)
  /\ pwd d
     = or_str (arg_password args)
              (match os_getenv "DOCKER_PASS" with
               | Some v => v
               | None => "password"
               end)
  /\ ws d
     = os_path_abspath
         (or_str (arg_workspace args)
                 (match os_getenv "DOCKER_WORKSPACE" with
                  | Some v => v
                  | None => "./workspace"
                  end))
  /\ script d = or_opt (arg_startup_script args) (os_getenv "DOCKER_STARTUP").
Proof.
  intros Hb. destruct (main_object_built args Hb) as (ps & o & _ & Ho & Hi).
  destruct (init_built _ _ _ _ _ _ _ _ _ Hi)
    as (Hn & Hop & Hu & Hp & Hw & Hs & _).
  repeat split; try assumption.
  rewrite Hop. unfold Op_getitem in Ho. apply find_some in Ho.
  destruct Ho as [_ Ho]. now apply String.eqb_eq in Ho.
Qed.

Lemma cli_ports_parse (args : Namespace) (l : list string) (d : Docker) :
  arg_ports args = Some l ->
  l <> [] ->
  main_object args = Built d ->
  Forall2 port_parses l (ports d).
Proof.
  intros Hl Hne Hb.
  destruct (main_object_built args Hb) as (ps & o & Hps & _ & Hi).
  rewrite Hl in Hps.
  destruct (init_built _ _ _ _ _ _ _ _ _ Hi)
    as (_ & _ & _ & _ & _ & _ & _ & _ & _ & Hports & _).
  apply map_crash_Forall2 in Hps.
  assert (Hd : ports d = ps).
  { destruct ps as [| q qs].
    - inversion Hps. subst. now contradiction Hne.
    - now apply Hports. }
  rewrite Hd. clear - Hps.
  induction Hps as [| x y xs ys Hxy _ IH]; constructor;
    [now apply cli_port_parses | exact IH].
Qed.

(** X13: ports given on the command line become the ports of the object,
    one pair per argument in the order given, each argument splitting at
    its colon into the two numerals read by [int]; an argument that does
    not split into exactly two pieces makes [main] raise before any object
    exists. *)
Theorem cli_ports_in_order (args : Namespace) (l : list string) :
  arg_ports args = Some l ->
  l <> [] ->
  (forall d, main_object args = Built d -> Forall2 port_parses l (ports d))
  /\ (forall p,
        In p l -> List.length (split_on ":" p) <> 2 ->
        exists c, main_object args = Crashed c).
Proof.
  intros Hl Hne. split.
  - intros d Hb. exact (cli_ports_parse args Hl Hne Hb).
  - intros p Hin Hlen. unfold main_object. rewrite Hl.
    destruct (map_crash_In cli_port l p Hin (cli_port_unpack p Hlen))
      as [c' ->].
    eauto.
Qed.

Lemma env_ports_parse (tuples : list (list Z)) (ps : list (Z * Z)) :
  env_ports = inr tuples ->
  pairs_of tuples = Some ps ->
  Forall2 port_parses (split_on "," (ENV_PORTS ENV)) ps.
Proof.
  unfold env_ports. intros He. apply map_crash_Forall2 in He.
  revert ps. induction He as [| p t l ts Hpt _ IH]; intros ps Hps.
  - cbn in Hps. pair_inv Hps. constructor.
  - cbn in Hps.
    destruct t as [| h [| c [| x rest]]]; try discriminate.
    destruct (pairs_of ts) as [ps' |] eqn:Hts; [| discriminate].
    pair_inv Hps. constructor; [| now apply IH].
    apply map_crash_Forall2 in Hpt.
    inversion Hpt as [| hs h' pieces hz Hh Hrest]; subst.
    inversion Hrest as [| cs c' pieces' cz Hc Hnil]; subst.
    inversion Hnil; subst.
    exists hs, cs. split; [now symmetry |].
    split; now apply int_or_crash_inr.
Qed.

Lemma ports_from_environment (args : Namespace) (d : Docker) :
  arg_ports args = None \/ arg_ports args = Some [] ->
  main_object args = Built d ->
  match ENV_PORTS ENV with
  | EmptyString => ports d = []
  | String _ _ => Forall2 port_parses (split_on "," (ENV_PORTS ENV)) (ports d)
  end.
Proof.
  intros Hnone Hb.
  destruct (main_object_built args Hb) as (ps & o & Hps & _ & Hi).
  assert (Hnil : ps = []).
  { destruct Hnone as [Hn | Hn]; rewrite Hn in Hps; cbn in Hps;
      now pair_inv Hps. }
  subst ps.
  destruct (init_built _ _ _ _ _ _ _ _ _ Hi)
    as (_ & _ & _ & _ & _ & _ & _ & _ & _ & _ & Henv).
  specialize (Henv (or_intror eq_refl)).
  destruct (ENV_PORTS ENV) as [| c0 rest] eqn:Hp; [exact Henv |].
  destruct Henv as (tuples & He & Hps'). rewrite <- Hp.
  exact (env_ports_parse He Hps').
Qed.

(** X14: without ports on the command line, the ports of the object come
    from DOCKER_PORTS: none when the variable is unset or empty (the empty
    default is not parsed), else one pair per comma-separated entry, in
    order, each entry splitting at its colon into two numerals. *)
Theorem environment_ports_without_cli_ports (args : Namespace) (d : Docker) :
  arg_ports args = None \/ arg_ports args = Some [] ->
  main_object args = Built d ->
  match os_getenv "DOCKER_PORTS" with
  | None | Some EmptyString => ports d = []
  | Some v => Forall2 port_parses (split_on "," v) (ports d)
  end.
Proof.
  intros Hnone Hb.
  pose proof (ports_from_environment args Hnone Hb) as Hf.
  unfold ENV, getenv_default in Hf. cbn [ENV_PORTS append] in Hf.
  destruct (os_getenv "DOCKER_PORTS") as [[| c0 rest] |]; exact Hf.
Qed.

(** X15: an entry of DOCKER_PORTS that does not split at colons into
    exactly two pieces (no colon, or more than one) never gives a usable
    object: the construction raises or leaves a port tuple that is not a
    pair. *)
Theorem odd_environment_port_is_never_built (args : Namespace) (v p : string) :
  arg_ports args = None ->
  os_getenv "DOCKER_PORTS" = Some v ->
  v <> EmptyString ->
  In p (split_on "," v) ->
  List.length (split_on ":" p) <> 2 ->
  forall d, main_object args <> Built d.
Proof.
  intros Hn Hv Hne Hin Hlen d Hb.
  pose proof (ports_from_environment args (or_introl Hn) Hb) as Hf.
  unfold ENV, getenv_default in Hf. cbn [ENV_PORTS append] in Hf.
  rewrite Hv in Hf. destruct v as [| c0 rest]; [now contradiction Hne |].
  clear - Hf Hin Hlen.
  induction Hf as [| x y xs ys Hxy _ IH]; [contradiction |].
  destruct Hin as [-> | Hin]; [| now apply IH].
  destruct Hxy as (h & c & Hs & _). rewrite Hs in Hlen.
  now contradiction Hlen.
Qed.

(** X16: the debug level is the one given on the command line when it is
    not 0, and then DOCKER_DEBUG is not read; with the level 0 it is
    [int] of DOCKER_DEBUG, and a value that [int] rejects makes [main]
    raise, whatever the operation, before anything is run. *)
Theorem debug_level_zero_reads_environment (args : Namespace) :
  (forall d, main_object args = Built d ->
             arg_debug args <> 0%Z -> debug d = arg_debug args)
  /\ (forall d v, main_object args = Built d ->
                  arg_debug args = 0%Z ->
                  os_getenv "DOCKER_DEBUG" = Some v ->
                  int_ v = Some (debug d))
  /\ (forall v, arg_ports args = None ->
                In (arg_operation args) choices ->
                arg_debug args = 0%Z ->
                os_getenv "DOCKER_DEBUG" = Some v ->
                int_ v = None ->
                main_object args = Crashed (ValueError_int v)).
Proof.
  repeat split.
  - intros d Hb Hne.
    destruct (main_object_built args Hb) as (ps & o & _ & _ & Hi).
    destruct (init_built _ _ _ _ _ _ _ _ _ Hi)
      as (_ & _ & _ & _ & _ & _ & _ & Hd & _).
    now apply Hd.
  - intros d v Hb Hz Hv.
    destruct (main_object_built args Hb) as (ps & o & _ & _ & Hi).
    destruct (init_built _ _ _ _ _ _ _ _ _ Hi)
      as (_ & _ & _ & _ & _ & _ & _ & _ & Hd & _).
    specialize (Hd Hz). unfold ENV, getenv_default in Hd.
    cbn [ENV_DEBUG append] in Hd. rewrite Hv in Hd. exact Hd.
  - intros v Hn Hw Hz Hv Hint.
    destruct (word_resolves Hw) as [o Ho].
    unfold main_object. rewrite Hn. cbn [map_crash]. rewrite Ho.
    unfold Docker_init. rewrite Hz. cbn [Z.eqb].
    unfold ENV, getenv_default. cbn [ENV_DEBUG append]. rewrite Hv.
    unfold int_or_crash. rewrite Hint. reflexivity.
Qed.

Lemma split_on_not_nil (sep : ascii) (s : string) : split_on sep s <> [].
Proof.
  destruct s as [| c rest]; cbn; [discriminate |].
  destruct (Ascii.eqb c sep); [discriminate |].
  destruct (split_on sep rest); discriminate.
Qed.

Lemma join_split (sep : ascii) (s : string) :
  join_with sep (split_on sep s) = s.
Proof.
  induction s as [| c rest IH]; [reflexivity |].
  cbn [split_on]. pose proof (split_on_not_nil sep rest) as Hne.
  destruct (Ascii.eqb c sep) eqn:Hc.
  - apply Ascii.eqb_eq in Hc. subst c.
    destruct (split_on sep rest) as [| piece pieces];
      [now contradiction Hne |].
    cbn [join_with append]. cbn [join_with] in IH. now rewrite IH.
  - destruct (split_on sep rest) as [| piece pieces];
      [now contradiction Hne |].
    destruct pieces as [| q qs]; cbn [join_with append] in *;
      now rewrite IH.
Qed.

Lemma split_two_joins (sep : ascii) (p h c : string) :
  split_on sep p = [h; c] -> p = (h ++ String sep c)%string.
Proof.
  intros H. rewrite <- (join_split sep p), H. reflexivity.
Qed.

(** X17: ports typed on the command line as numerals in the form [str]
    writes them reach [docker run] as they were typed: the publish
    arguments of the built object are [-p <argument>], one per argument,
    in order. *)
Theorem canonical_cli_ports_are_published_verbatim
        (args : Namespace) (l : list string) (d : Docker) :
  arg_ports args = Some l ->
  l <> [] ->
  main_object args = Built d ->
  (forall p, In p l -> canonical p) ->
  port_flags (ports d) = flat_map (fun p => ["-p"; p]) l.
Proof.
  intros Hl Hne Hb Hcan.
  pose proof (cli_ports_parse args Hl Hne Hb) as Hf.
  rewrite port_flags_publish. clear - Hf Hcan.
  induction Hf as [| p hc ps hcs Hp _ IH]; [reflexivity |].
  unfold publish_args in *. cbn [flat_map app].
  rewrite IH by (intros q Hq; apply Hcan; now right).
  destruct Hp as (h & c & Hs & Hh & Hc).
  destruct (Hcan p (or_introl eq_refl) h c _ _ Hs Hh Hc) as [-> ->].
  rewrite (split_two_joins _ _ Hs). reflexivity.
Qed.

End Built.

(** * The environment of two hosts *)

Lemma map_crash_ext {A B} (f g : A -> Crash + B) (l : list A) :
  (forall x, f x = g x) -> map_crash f l = map_crash g l.
Proof.
  intros Hfg. induction l as [| x l IH]; [reflexivity |].
  cbn. now rewrite Hfg, IH.
Qed.

(** X11: [main] always hands [__init__] the [--root] flag, a boolean, so
    the root mode of the object is that flag and DOCKER_ROOT is never
    read: two hosts that differ only in that variable build the same
    object or raise the same exception. *)
Theorem docker_root_variable_is_dead (H1 H2 : Host) (args : Namespace) :
  (forall k, k <> "DOCKER_ROOT" -> @os_getenv H1 k = @os_getenv H2 k) ->
  (forall p, @os_path_abspath H1 p = @os_path_abspath H2 p) ->
  (forall s, @int_ H1 s = @int_ H2 s) ->
  @main_object H1 args = @main_object H2 args
  /\ forall d, @main_object H1 args = Built d -> root d = arg_root args.
Proof.
  intros Hg Ha Hi. split.
  - assert (Hint : forall s, @int_or_crash H1 s = @int_or_crash H2 s).
    { intros s. unfold int_or_crash. now rewrite Hi. }
    assert (Hport : forall p, @cli_port H1 p = @cli_port H2 p).
    { intros p. unfold cli_port.
      destruct (split_on ":" p) as [| h [| c [| x rest]]]; try reflexivity.
      now rewrite !Hint. }
    assert (Hfield : forall k v, k <> "ROOT" ->
                                 @getenv_default H1 k v = @getenv_default H2 k v).
    { intros k v Hk. unfold getenv_default. rewrite Hg; [reflexivity |].
      intros Heq. apply Hk. cbn in Heq. now inversion Heq. }
    unfold main_object. rewrite (map_crash_ext _ _ _ Hport).
    destruct (map_crash cli_port _) as [c | ps]; [reflexivity |].
    destruct (Op_getitem (upper (arg_operation args))) as [o |];
      [| reflexivity].
    unfold Docker_init, env_ports, ENV.
    cbn [ENV_USER ENV_PASS ENV_WORKSPACE ENV_PORTS ENV_STARTUP ENV_DEBUG].
    rewrite (Hfield "USER"), (Hfield "PASS"), (Hfield "WORKSPACE"),
      (Hfield "PORTS"), (Hfield "DEBUG") by discriminate.
    rewrite (Hg "DOCKER_STARTUP") by discriminate.
    rewrite Ha, Hint.
    rewrite (map_crash_ext
               (fun p => map_crash (@int_or_crash H1) (split_on ":" p))
               (fun p => map_crash (@int_or_crash H2) (split_on ":" p)))
      by (intros p; now apply map_crash_ext).
    reflexivity.
  - intros d Hb.
    destruct (@main_object_built H1 args d Hb) as (ps & o & _ & _ & Hinit).
    destruct (@init_built H1 _ _ _ _ _ _ _ _ _ _ Hinit)
      as (_ & _ & _ & _ & _ & _ & Hr & _).
    now apply Hr.
Qed.

(** * The theorems at work on the scripted engine *)

Section Runs.

Import Scripted.

(** Start on a running container is rejected without any engine command. *)
Lemma validation_gate_witness :
  let d := docker START in
  let w := fresh [listed here; listed here] in
  result (observe d w) = Ok (true, true)
  /\ engine_commands (trace (run d w)) = [].
Proof.
  intros d w. split; [reflexivity |].
  destruct (@validation_gate_matches_table World runtime d w true true
              (trace (observe d w)) (world (observe d w)))
    as (_ & Hrej & _).
  - vm_compute. reflexivity.
  - apply Hrej. reflexivity.
Defined.

(** Start on a running container prints the unevaluated expression. *)
Lemma start_stop_rejection_witness :
  let d := docker START in
  let w := fresh [listed here; listed here] in
  result (observe d w) = Ok (true, true)
  /\ In (EPrint "Container test-container 'not found' if not exists else 'running'")
        (trace (run d w)).
Proof.
  intros d w. split; [reflexivity |].
  destruct (@start_stop_rejection_text World runtime d w true true
              (trace (observe d w)) (world (observe d w)))
    as (Hstart & _ & _).
  - vm_compute. reflexivity.
  - reflexivity.
  - rewrite Hstart by reflexivity. vm_compute. in_list.
Defined.

(** A failing sync on an existing container is followed by the restart. *)
Lemma clean_is_not_fail_fast :
  ~ clean_is_fail_fast (docker CLEAN)
      (fresh [listed here; listed here; failed 1; done]).
Proof.
  intros H.
  refine (H true
            (trace (observe (docker CLEAN) (fresh [listed here; listed here])))
            (fresh_after_setup (docker CLEAN) [failed 1; done])
            eq_refl _ _ _).
  - vm_compute. reflexivity.
  - left. eexists. eexists. vm_compute. reflexivity.
  - vm_compute. in_list.
Qed.

Lemma clean_restarts_witness :
  let d := docker CLEAN in
  let w := fresh [listed here; listed here; failed 1; done] in
  result (observe d w) = Ok (true, true)
  /\ trace (run d w)
     = (trace (observe d w)
        ++ [ESubprocess (sync_cmd d) checked;
            EPrint "Cache clear failed: non-zero exit status 1";
            restart_event d;
            EPrint "Operation 'clean' completed!"])%list.
Proof.
  intros d w. split; [reflexivity |].
  destruct (@clean_restarts_after_cache_failure World runtime d w true
              (trace (observe d w)) (world (observe d w)))
    as (Hsync & _).
  - reflexivity.
  - vm_compute. reflexivity.
  - erewrite Hsync by (vm_compute; reflexivity). vm_compute. reflexivity.
Defined.

(** A failing build is followed by the confirmation of the operation. *)
Lemma failed_create_witness :
  let d := docker CREATE in
  let w := fresh [listed EmptyString; listed EmptyString; failed 1] in
  result (observe d w) = Ok (false, false)
  /\ skipn 7 (trace (run d w))
     = [ESubprocess (build_cmd d) checked;
        EPrint "Build failed: non-zero exit status 1";
        EPrint "Operation 'create' completed!"].
Proof.
  intros d w. split; [reflexivity |].
  destruct (@failed_create_reported_completed World runtime d w false
              (trace (observe d w)) (world (observe d w)))
    as (Hbuild & _).
  - reflexivity.
  - vm_compute. reflexivity.
  - erewrite Hbuild by (vm_compute; reflexivity). vm_compute. reflexivity.
Defined.

(** Create with a startup script, every step returning. *)
Lemma create_sequence_witness :
  let d := docker_scripted CREATE in
  let w := fresh [listed EmptyString; listed EmptyString; done; done; done] in
  result (observe d w) = Ok (false, false)
  /\ actions (trace (run d w))
     = (actions (trace (observe d w))
        ++ [EMakedirs "/tmp/test_workspace";
            ESubprocess (build_cmd d) checked;
            ESubprocess
              ["docker"; "run"; "-d"; "--name"; here;
               "-p"; "8080:80"; "-p"; "2222:22";
               "-v"; "/tmp/test_workspace:/home/alice/workspace";
               "-u"; "alice"; here] checked;
            ESubprocess
              ["docker"; "exec"; here; "bash"; "-c";
               "cd /home/alice/workspace && ./init.sh"] checked])%list.
Proof.
  intros d w. split; [reflexivity |].
  destruct (@create_issues_its_sequence World runtime d w false
              (trace (observe d w)) (world (observe d w)))
    as (Hrun & _ & _ & _ & Hall & _).
  - reflexivity.
  - vm_compute. reflexivity.
  - rewrite Hrun, trace_conclude, !actions_app.
    erewrite Hall by (vm_compute; reflexivity).
    vm_compute. reflexivity.
Defined.

(** The test suite's reset run: stop, then build and run. *)
Lemma reset_witness :
  let d := docker RESET in
  let w := fresh [listed here; listed here; done; done; done] in
  result (observe d w) = Ok (true, true)
  /\ engine_commands (trace (run d w))
     = [ESubprocess ["docker"; "stop"; here] checked;
        ESubprocess (build_cmd d) checked;
        ESubprocess (run_cmd d) checked].
Proof.
  intros d w. split; [reflexivity |].
  destruct (@reset_tears_down_then_creates World runtime d w true true
              (trace (observe d w)) (world (observe d w)))
    as (Hstop & _ & _).
  - reflexivity.
  - vm_compute. reflexivity.
  - edestruct Hstop as [Hrun _]; [reflexivity | reflexivity | |].
    + vm_compute. reflexivity.
    + rewrite Hrun. vm_compute. reflexivity.
Defined.

(** FullRebuild on a stopped container whose image cannot be removed. *)
Lemma nuke_witness :
  let d := docker NUKE in
  let w := fresh [listed here; listed EmptyString; done; failed 1] in
  result (observe d w) = Ok (true, false)
  /\ engine_commands (trace (run d w))
     = [ESubprocess ["docker"; "rm"; here] checked; rmi_event d].
Proof.
  intros d w. split; [reflexivity |].
  destruct (@nuke_removes_image_before_create World runtime d w true false
              (trace (observe d w)) (world (observe d w))
              [ESubprocess ["docker"; "rm"; here] checked]
              (fresh_after_setup d [failed 1]))
    as (_ & _ & Hfail & _).
  - reflexivity.
  - vm_compute. reflexivity.
  - vm_compute. reflexivity.
  - erewrite Hfail by (vm_compute; reflexivity). vm_compute. reflexivity.
Defined.

(** The second configured port is the second published pair. *)
Lemma run_cmd_witness :
  let d := docker_scripted CREATE in
  nth_error (ports d) 1 = Some (2222, 22)%Z
  /\ nth_error (run_cmd d) 7 = Some "-p"
  /\ nth_error (run_cmd d) 8 = Some "2222:22".
Proof.
  intros d. split; [reflexivity |].
  destruct (run_cmd_arguments d) as (_ & _ & Hnth & _).
  apply (Hnth 1 2222%Z 22%Z). reflexivity.
Defined.

(** An engine that cannot be reached looks like an engine without the
    container. *)
Lemma state_queries_witness :
  let d := docker START in
  let w := fresh [Raise (OtherException "docker: command not found")] in
  fst (subprocess_run (exists_cmd d) captured w)
  = Raise (OtherException "docker: command not found")
  /\ result (exists_ d w) = Ok false.
Proof.
  intros d w. split; [reflexivity |].
  destruct (@state_queries_swallow_exceptions World runtime d w)
    as (_ & _ & Hraise & _).
  erewrite Hraise by (vm_compute; reflexivity). reflexivity.
Defined.

(** A rejected Start on a machine without the project directory leaves the
    directory and its Dockerfile behind. *)
Lemma setup_witness :
  let d := docker START in
  let w := fresh [listed EmptyString; listed EmptyString] in
  path_exists (dir d) w = false
  /\ (exists rest,
        trace (run d w)
        = EMkdir (dir d) :: ECopy (TMPL // "Dockerfile.template") (df d) :: rest)
  /\ path_exists (dir d) (world (run d w)) = true
  /\ path_exists (df d) (world (run d w)) = true.
Proof.
  intros d w. split; [reflexivity |].
  destruct (@setup_precedes_validation World runtime d w)
    as ([rest Hrun] & _ & _ & Hboth).
  destruct (Hboth (touch (dir d) w)) as [rest' Hsetup];
    [reflexivity | reflexivity | reflexivity |].
  split; [| split; reflexivity].
  rewrite Hrun, Hsetup. eexists. reflexivity.
Defined.

(** The runs of [test/test_run.py], replayed. *)

Example test_container_state_checks :
  result (exists_ (docker CREATE) (fresh [listed here])) = Ok true
  /\ result (exists_ (docker CREATE) (fresh [listed EmptyString])) = Ok false
  /\ result (running (docker CREATE) (fresh [listed here])) = Ok true
  /\ result (running (docker CREATE) (fresh [listed EmptyString])) = Ok false.
Proof. repeat split; reflexivity. Qed.

Example test_start_operation :
  engine_commands
    (trace (run (docker START) (fresh [listed here; listed EmptyString; done])))
  = [ESubprocess ["docker"; "start"; here] checked].
Proof. vm_compute. reflexivity. Qed.

Example test_stop_operation :
  engine_commands
    (trace (run (docker STOP) (fresh [listed here; listed here; done])))
  = [ESubprocess ["docker"; "stop"; here] checked].
Proof. vm_compute. reflexivity. Qed.

Example test_nuke_operation :
  engine_commands
    (trace (run (docker NUKE)
                (fresh [listed here; listed here; done; done; done; done])))
  = [ESubprocess ["docker"; "stop"; here] checked;
     ESubprocess ["docker"; "rmi"; here] checked;
     ESubprocess (build_cmd (docker NUKE)) checked;
     ESubprocess (run_cmd (docker NUKE)) checked].
Proof. vm_compute. reflexivity. Qed.

Example test_clean_operation :
  engine_commands
    (trace (run (docker CLEAN)
                (fresh [listed here; listed here; done; done; done])))
  = [ESubprocess ["docker"; "exec"; here; "sync"] checked;
     ESubprocess (drop_caches_cmd (docker CLEAN)) checked;
     ESubprocess ["docker"; "restart"; here] checked].
Proof. vm_compute. reflexivity. Qed.

End Runs.

(** * The further properties at work *)

Section MoreRuns.

Import Scripted.

(** A machine without the template: the copy of [setup] raises. *)
Lemma setup_failure_witness :
  let d := docker STOP in
  let w := {| files := []; replies := [listed here; listed here; done] |} in
  result (setup d w)
  = Raise (OtherException
             "No such file or directory: /srv/containers/drun/templates/Dockerfile.template")
  /\ filter is_subprocess (trace (run d w)) = [].
Proof.
  intros d w. split; [reflexivity |].
  apply (@setup_failure_stops_run World runtime d w
           (OtherException
              "No such file or directory: /srv/containers/drun/templates/Dockerfile.template")
           (trace (setup d w)) (world (setup d w))).
  vm_compute. reflexivity.
Defined.

(** The test suite's start run. *)
Lemma plain_operation_witness :
  let d := docker START in
  let w := fresh [listed here; listed EmptyString; done] in
  result (observe d w) = Ok (true, false)
  /\ engine_commands (trace (run d w))
     = [ESubprocess ["docker"; "start"; here] checked].
Proof.
  intros d w. split; [reflexivity |].
  destruct (@plain_operation_issues_one_command World runtime d w true false
              (trace (observe d w)) (world (observe d w)))
    as [_ Hcmd].
  - reflexivity.
  - vm_compute. reflexivity.
  - reflexivity.
  - rewrite Hcmd. reflexivity.
Defined.

(** A start that the engine refuses prints no confirmation. *)
Lemma confirmation_witness :
  let d := docker START in
  let w := fresh [listed here; listed EmptyString; failed 1] in
  result (dispatch d true false (fresh_after_setup d [failed 1]))
  = Raise (CalledProcessError "non-zero exit status 1")
  /\ ~ In (EPrint "Operation 'start' completed!") (trace (run d w)).
Proof.
  intros d w. split; [reflexivity |].
  intros Hin.
  apply (proj1 (@confirmation_iff_dispatch_returns World runtime d w)) in Hin.
  destruct Hin as (ex & rn & l0 & w0 & Ho & _ & Hd).
  vm_compute in Ho. pair_inv Ho. vm_compute in Hd. discriminate Hd.
Defined.

(** The test suite's clean run. *)
Lemma clean_success_witness :
  let d := docker CLEAN in
  let w := fresh [listed here; listed here; done; done; done] in
  result (observe d w) = Ok (true, true)
  /\ actions (skipn 5 (trace (run d w)))
     = [ESubprocess (sync_cmd d) checked;
        ESubprocess (drop_caches_cmd d) checked;
        restart_event d].
Proof.
  intros d w. split; [reflexivity |].
  erewrite (@clean_runs_sync_drop_restart World runtime d w true
              (trace (observe d w)) (world (observe d w))).
  - vm_compute. reflexivity.
  - reflexivity.
  - vm_compute. reflexivity.
  - vm_compute. reflexivity.
  - vm_compute. reflexivity.
Defined.

(** A stop that fails ends a full rebuild before the image is touched. *)
Lemma failed_teardown_witness :
  let d := docker NUKE in
  let w := fresh [listed here; listed here; failed 1; done; done; done] in
  result (observe d w) = Ok (true, true)
  /\ engine_commands (trace (run d w))
     = [ESubprocess ["docker"; "stop"; here] checked].
Proof.
  intros d w. split; [reflexivity |].
  erewrite (@failed_teardown_aborts World runtime d w true
              (trace (observe d w)) (world (observe d w))).
  - vm_compute. reflexivity.
  - right. reflexivity.
  - vm_compute. reflexivity.
  - vm_compute. reflexivity.
Defined.

(** A longer name in the output makes the container exist. *)
Lemma substring_witness :
  let d := docker START in
  let w := fresh [listed "my-test-container-2"] in
  fst (subprocess_run (exists_cmd d) captured w)
  = Ok {| returncode := 0; stdout := "my-test-container-2" |}
  /\ result (exists_ d w) = Ok true.
Proof.
  intros d w. split; [reflexivity |].
  destruct (@state_query_is_a_substring_test World runtime d w) as [Hex _].
  eapply Hex.
  - vm_compute. reflexivity.
  - exists "my-", "-2". reflexivity.
Defined.

(** A second run on the same project finds it set up. *)
Lemma prepared_project_witness :
  let d := docker STOP in
  let w := fresh_after_setup d [listed here; listed here; done] in
  path_exists (dir d) w = true
  /\ path_exists (df d) w = true
  /\ trace (observe d w)
     = [ESubprocess (exists_cmd d) captured;
        ESubprocess (running_cmd d) captured].
Proof.
  intros d w. split; [reflexivity | split; [reflexivity |]].
  apply (@prepared_project_is_left_alone World runtime d w); reflexivity.
Defined.


(** A [docker run] that the engine refuses. *)
Lemma create_failure_witness :
  let d := docker_scripted CREATE in
  let w := fresh [listed EmptyString; listed EmptyString; done; failed 125; done] in
  result (observe d w) = Ok (false, false)
  /\ last (trace (run d w)) (EPrint EmptyString)
     = EPrint "Error during error: non-zero exit status 125"
  /\ engine_commands (trace (run d w))
     = [ESubprocess (build_cmd d) checked; ESubprocess (run_cmd d) checked].
Proof.
  intros d w. split; [reflexivity |].
  destruct (@create_lets_makedirs_and_run_failures_out World runtime d w false
              (trace (observe d w)) (world (observe d w)))
    as [_ Hrun].
  - reflexivity.
  - vm_compute. reflexivity.
  - reflexivity.
  - edestruct Hrun as [_ Hlast].
    + vm_compute. reflexivity.
    + vm_compute. reflexivity.
    + vm_compute. reflexivity.
    + split; [rewrite Hlast |]; vm_compute; reflexivity.
Defined.

End MoreRuns.

Section Constructions.

Import ScriptedHost.

Lemma operation_word_witness :
  In "reset" choices
  /\ exists o, Op_getitem (upper "reset") = Some o
               /\ lower (Op_name o) = "reset".
Proof.
  assert (Hin : In "reset" choices) by (vm_compute; in_list).
  split; [exact Hin |].
  destruct (operation_word_round_trip Hin) as (o & Ho & Hl & _).
  exists o. split; assumption.
Defined.

(** DOCKER_ROOT=1 does not make the object run as root. *)
Lemma docker_root_witness :
  let args := cli "start" in
  @main_object (host [("DOCKER_ROOT", "1")]) args
  = @main_object (host []) args
  /\ forall d, @main_object (host [("DOCKER_ROOT", "1")]) args = Built d ->
               root d = false.
Proof.
  intros args.
  apply (@docker_root_variable_is_dead
           (host [("DOCKER_ROOT", "1")]) (host []) args).
  - intros k Hk.
    change (lookup [("DOCKER_ROOT", "1")] k = lookup [] k).
    unfold lookup. cbn [find fst snd].
    destruct (String.eqb_spec "DOCKER_ROOT" k) as [He | _];
      [now contradiction Hk | reflexivity].
  - reflexivity.
  - reflexivity.
Defined.

(** An empty --username falls back to DOCKER_USER. *)
Lemma precedence_witness :
  let h := host [("DOCKER_USER", "alice")] in
  let args := {| arg_operation := "create"; arg_container_name := "box";
                 arg_username := Some EmptyString; arg_password := Some "s3";
                 arg_workspace := None; arg_startup_script := None;
                 arg_ports := None; arg_root := true; arg_debug := 1 |} in
  exists d,
    @main_object h args = Built d
    /\ user d = "alice" /\ pwd d = "s3" /\ ws d = "/work/./workspace"
    /\ op d = CREATE.
Proof.
  intros h args. eexists. split; [vm_compute; reflexivity |].
  match goal with
  | |- user ?d = _ /\ _ =>
      destruct (@explicit_then_environment_then_default h args d)
        as (_ & _ & Hu & Hp & Hw & _); [vm_compute; reflexivity |]
  end.
  repeat split; reflexivity.
Defined.

Lemma cli_ports_witness :
  exists d,
    @main_object (host []) two_ports = Built d
    /\ Forall2 (@port_parses (host [])) ["8080:80"; "2222:22"] (ports d)
    /\ ports d = [(8080, 80); (2222, 22)]%Z.
Proof.
  eexists. split; [vm_compute; reflexivity |]. split; [| reflexivity].
  destruct (@cli_ports_in_order (host []) two_ports ["8080:80"; "2222:22"])
    as [Hall _]; [reflexivity | discriminate |].
  apply Hall. vm_compute. reflexivity.
Defined.

Lemma environment_ports_witness :
  let h := host [("DOCKER_PORTS", "8080:80,2222:22")] in
  exists d,
    @main_object h (cli "create") = Built d
    /\ Forall2 (@port_parses h) ["8080:80"; "2222:22"] (ports d)
    /\ ports d = [(8080, 80); (2222, 22)]%Z.
Proof.
  intros h. eexists. split; [vm_compute; reflexivity |].
  split; [| reflexivity].
  match goal with
  | |- Forall2 _ _ (ports ?d) =>
      exact (@environment_ports_without_cli_ports h (cli "create") d
               (or_introl eq_refl) eq_refl)
  end.
Defined.

(** DOCKER_PORTS=8080 never gives an object with usable ports. *)
Lemma odd_environment_port_witness :
  let h := host [("DOCKER_PORTS", "8080")] in
  In "8080" (split_on "," "8080")
  /\ forall d, @main_object h (cli "stop") <> Built d.
Proof.
  intros h. split; [left; reflexivity |].
  apply (@odd_environment_port_is_never_built h (cli "stop") "8080" "8080").
  - reflexivity.
  - reflexivity.
  - discriminate.
  - left. reflexivity.
  - vm_compute. discriminate.
Defined.

(** DOCKER_DEBUG=verbose breaks a plain [stop]. *)
Lemma debug_level_witness :
  let h := host [("DOCKER_DEBUG", "verbose")] in
  @int_ h "verbose" = None
  /\ @main_object h (cli "stop") = Crashed (ValueError_int "verbose").
Proof.
  intros h. split; [reflexivity |].
  destruct (@debug_level_zero_reads_environment h (cli "stop"))
    as (_ & _ & Hcrash).
  apply Hcrash.
  - reflexivity.
  - vm_compute. in_list.
  - reflexivity.
  - reflexivity.
  - reflexivity.
Defined.

Lemma canonical_ports_witness :
  exists d,
    @main_object (host []) two_ports = Built d
    /\ port_flags (ports d) = ["-p"; "8080:80"; "-p"; "2222:22"].
Proof.
  eexists. split; [vm_compute; reflexivity |].
  apply (@canonical_cli_ports_are_published_verbatim
           (host []) two_ports ["8080:80"; "2222:22"]).
  - reflexivity.
  - discriminate.
  - vm_compute. reflexivity.
  - intros p [<- | [<- | []]] h c hz cz Hs Hh Hc;
      vm_compute in Hs; pair_inv Hs;
      vm_compute in Hh; pair_inv Hh;
      vm_compute in Hc; pair_inv Hc;
      split; reflexivity.
Defined.

End Constructions.
